(** * Rentopia: session bootstrap and Firestore access layer

    A shallow embedding of [context/AuthContext.js] (the [AuthProvider]
    component: the [onAuthStateChanged] callback, [login], [register],
    [logout]) and of [services/firestoreService.js] (the CRUD helpers and the
    two [listenTo...] subscriptions), together with a model of the three
    external collaborators they talk to: Firebase Auth, Firestore and
    expo-secure-store. *)

From Stdlib Require Import Ascii.
From stdpp Require Import gmap strings list fin_maps.

Open Scope string_scope.

(** ** JavaScript values stored in documents and React state *)

Inductive val :=
  | VUndefined
  | VNull
  | VBool (b : bool)
  | VNum (n : Z)
  | VStr (s : string)
  | VDate (ms : Z)            (* [new Date()]: a reading of the client clock *)
  | VServerTimestamp          (* the [serverTimestamp()] sentinel *)
  | VTimestamp (t : Z).       (* a timestamp assigned by the store's clock *)

#[global] Instance val_eq_dec : EqDecision val.
Proof. solve_decision. Defined.

(** A JavaScript [Error] is represented by its message. *)
Abbreviation error := string (only parsing).

(** Plain objects and document payloads: field name to value. *)
Abbreviation obj := (gmap string val) (only parsing).

(** [o.f]: reading a missing property gives [undefined]. *)
Definition prop (o : obj) (f : string) : val := default VUndefined (o !! f).

(** [{ ...o, f: v }] *)
Definition spread_set (o : obj) (f : string) (v : val) : obj := <[f := v]> o.

(** JavaScript truthiness. *)
Definition truthy (v : val) : bool :=
  match v with
  | VUndefined | VNull => false
  | VBool b => b
  | VNum n => negb (n =? 0)%Z
  | VStr s => negb (String.eqb s "")
  | VDate _ | VServerTimestamp | VTimestamp _ => true
  end.

(** A string-or-[null] value. *)
Definition of_nullable (o : option string) : val :=
  match o with
  | Some s => VStr s
  | None => VNull
  end.

(** ** Firestore (external collaborator)

    Documents are addressed by a collection path and a document id.  The
    store owns a clock; a write replaces every [serverTimestamp()] sentinel
    of its payload by the clock's reading.  Every SDK entry point that is
    invoked is appended to [calls]. *)

Module Firestore.

Inductive op := OpEq | OpNe | OpLt | OpLe | OpGt | OpGe.

#[global] Instance op_eq_dec : EqDecision op.
Proof. solve_decision. Defined.

(** [{ field, operator, value }] *)
Record condition := Condition {
  field : string;
  operator : op;
  value : val
}.

(** A collection reference refined by [where] constraints. *)
Record query := Query {
  q_path : string;
  q_wheres : list condition
}.

Inductive sdk_call :=
  | CCollection (path : string)
  | CWhere (c : condition)
  | CGetDoc (path id : string)
  | CSetDoc (path id : string) (merge : bool)
  | CUpdateDoc (path id : string)
  | CAddDoc (path : string)
  | CDeleteDoc (path id : string)
  | CGetDocs (q : query)
  | COnSnapshotDoc (path id : string)
  | COnSnapshotQuery (q : query).

Record t := Store {
  docs : gmap (string * string) (gmap string val);
  clock : Z;
  calls : list sdk_call
}.

Definition log (c : sdk_call) (fs : t) : t :=
  {| docs := docs fs; clock := clock fs; calls := (calls fs ++ [c])%list |}.

(** What the server stores for a written field. *)
Definition resolve (now : Z) (v : val) : val :=
  match v with
  | VServerTimestamp => VTimestamp now
  | _ => v
  end.

Definition written (fs : t) (data : obj) : obj := resolve (clock fs) <$> data.

Definition put (path id : string) (d : obj) (fs : t) : t :=
  {| docs := <[(path, id) := d]> (docs fs);
     clock := (clock fs + 1)%Z;
     calls := calls fs |}.

(** Path segments, split at ['/']. *)
Fixpoint segments_go (s : string) (cur : string) : list string :=
  match s with
  | EmptyString => [cur]
  | String c s' =>
      if Ascii.eqb c "/"%char then cur :: segments_go s' ""
      else segments_go s' (cur +:+ String c "")
  end.

Definition segments (s : string) : list string := segments_go s "".

(** [collection(db, path)] throws unless the path has an odd number of
    non-empty segments. *)
Definition valid_collection_path (path : string) : bool :=
  let segs := segments path in
  Nat.odd (length segs) && forallb (λ s, negb (String.eqb s "")) segs.

Definition collection (path : string) (fs : t) : t * (error + query) :=
  let fs := log (CCollection path) fs in
  if valid_collection_path path then (fs, inr (Query path []))
  else (fs, inl "Invalid collection reference.").

(** A text without ['/']: interpolated into a path it is one segment. *)
Fixpoint slash_free (s : string) : bool :=
  match s with
  | EmptyString => true
  | String c s' => negb (Ascii.eqb c "/"%char) && slash_free s'
  end.

(** [doc(db, path, id)] throws unless [path] and [id] together have an even
    number of segments.  A document is addressed here by the path of its
    collection and an id of one segment; these are the references the
    model takes for valid. *)
Definition valid_document_path (path id : string) : bool :=
  valid_collection_path path && negb (String.eqb id "") && slash_free id.

(** [doc(db, path, id)]: the reference, or what the call throws. *)
Definition doc (path id : string) : error + (string * string) :=
  if valid_document_path path id then inr (path, id)
  else inl "Invalid document reference.".

(** The SDK validates a filter when [where] builds it and when [query]
    adds it to a query, and throws on one it does not support (a value
    that is [undefined], a second [!=] filter, ...).  That validation is
    not in the sources: what it throws for a filter added to a query, if
    anything, is a parameter of the model. *)
Definition validation : Type := query → condition → option error.

(** [query(q, where(field, operator, value))]; [thrown] is what the SDK's
    validation throws, if anything. *)
Definition query_where (thrown : option error) (q : query) (c : condition)
    (fs : t) : t * (error + query) :=
  let fs := log (CWhere c) fs in
  match thrown with
  | Some e => (fs, inl e)
  | None => (fs, inr (Query (q_path q) (q_wheres q ++ [c])%list))
  end.

(** The SDK accepts [conditions], added in this order on top of [q]. *)
Fixpoint accepts (sdk : validation) (q : query) (conditions : list condition)
  : bool :=
  match conditions with
  | [] => true
  | c :: conditions =>
      match sdk q c with
      | Some _ => false
      | None => accepts sdk (Query (q_path q) (q_wheres q ++ [c])%list) conditions
      end
  end.

(** [getDoc]: the snapshot is [None] when the document does not exist. *)
Definition getDoc (fault : option error) (path id : string) (fs : t)
  : t * (error + option obj) :=
  let fs := log (CGetDoc path id) fs in
  match fault with
  | Some e => (fs, inl e)
  | None => (fs, inr (docs fs !! (path, id)))
  end.

(** [setDoc(ref, data)] overwrites; [setDoc(ref, data, { merge: true })]
    writes the supplied fields over the existing document. *)
Definition setDoc (fault : option error) (merge : bool) (path id : string)
    (data : obj) (fs : t) : t * (error + unit) :=
  let fs := log (CSetDoc path id merge) fs in
  match fault with
  | Some e => (fs, inl e)
  | None =>
      let old := default ∅ (docs fs !! (path, id)) in
      let new := if merge then written fs data ∪ old else written fs data in
      (put path id new fs, inr tt)
  end.

(** [updateDoc] fails when the document does not exist.  Field names are
    taken without dots (to [updateDoc] a dotted key is a path into a map)
    and values are not maps; for such data the write on an existing
    document is the merge of [setDoc]. *)
Definition updateDoc (fault : option error) (path id : string)
    (data : obj) (fs : t) : t * (error + unit) :=
  let fs := log (CUpdateDoc path id) fs in
  match fault with
  | Some e => (fs, inl e)
  | None =>
      match docs fs !! (path, id) with
      | None => (fs, inl "No document to update.")
      | Some old => (put path id (written fs data ∪ old) fs, inr tt)
      end
  end.

(** Ids in use, over all collections. *)
Definition used_ids (fs : t) : gset string :=
  set_map snd (dom (docs fs)).

(** [addDoc] creates a document under an id chosen by the SDK.  The SDK
    draws the id at random; the model takes an id that is not in use, which
    is what a random id is unless it collides. *)
Definition addDoc (fault : option error) (path : string) (data : obj)
    (fs : t) : t * (error + string) :=
  let fs := log (CAddDoc path) fs in
  match fault with
  | Some e => (fs, inl e)
  | None =>
      let id := fresh (used_ids fs) in
      (put path id (written fs data) fs, inr id)
  end.

Definition deleteDoc (fault : option error) (path id : string) (fs : t)
  : t * (error + unit) :=
  let fs := log (CDeleteDoc path id) fs in
  match fault with
  | Some e => (fs, inl e)
  | None =>
      ({| docs := delete (path, id) (docs fs);
          clock := clock fs; calls := calls fs |}, inr tt)
  end.

(** Ordering of two values of the same type. *)
Definition val_compare (a b : val) : option comparison :=
  match a, b with
  | VNum x, VNum y => Some (x ?= y)%Z
  | VStr x, VStr y => Some (String.compare x y)
  | VBool x, VBool y => Some (Bool.compare x y)
  | VDate x, VDate y => Some (x ?= y)%Z
  | VTimestamp x, VTimestamp y => Some (x ?= y)%Z
  | _, _ => None
  end.

(** A document matches a constraint only when it has the field; a field
    that is [null] matches no [!=] constraint.  Documents are flat: a field
    name is the name of a top-level field. *)
Definition matches (d : obj) (c : condition) : bool :=
  match d !! field c with
  | None => false
  | Some v =>
      match operator c with
      | OpEq => bool_decide (v = value c)
      | OpNe => bool_decide (v ≠ VNull) && bool_decide (v ≠ value c)
      | OpLt => match val_compare v (value c) with Some Lt => true | _ => false end
      | OpLe => match val_compare v (value c) with Some (Lt | Eq) => true | _ => false end
      | OpGt => match val_compare v (value c) with Some Gt => true | _ => false end
      | OpGe => match val_compare v (value c) with Some (Gt | Eq) => true | _ => false end
      end
  end.

(** The documents of one collection, as (id, data) pairs, in the order in
    which the map enumerates them; nothing below depends on that order. *)
Definition collection_docs (path : string) (fs : t) : list (string * obj) :=
  omap (λ kv : (string * string) * obj,
          if decide (kv.1.1 = path) then Some (kv.1.2, kv.2) else None)
       (map_to_list (docs fs)).

(** The result set of a query: the conjunction of its constraints. *)
Definition run_query (q : query) (fs : t) : list (string * obj) :=
  filter (λ d, Forall (λ c, matches d.2 c = true) (q_wheres q))
         (collection_docs (q_path q) fs).

(** [getDocs(q)] *)
Definition getDocs (fault : option error) (q : query) (fs : t)
  : t * (error + list (string * obj)) :=
  let fs := log (CGetDocs q) fs in
  match fault with
  | Some e => (fs, inl e)
  | None => (fs, inr (run_query q fs))
  end.

Definition onSnapshotDoc (path id : string) (fs : t) : t :=
  log (COnSnapshotDoc path id) fs.

Definition onSnapshotQuery (q : query) (fs : t) : t :=
  log (COnSnapshotQuery q) fs.

End Firestore.

(** ** services/firestoreService.js

    The service's own [console] output is not modelled. *)

Module FirestoreService.
Import Firestore.

(** The module-level [db]: [None] is [undefined]. *)
Inductive dbref := Db (projectId : val).

Inductive init_step := InitializeApp | GetFirestore | GetStorage.

(** Module initialisation.  [throws] names the SDK call that throws, if
    any; the [catch] leaves the variables assigned so far. *)
Definition initialize (firebaseConfig : obj) (throws : option init_step)
  : option dbref :=
  if bool_decide (firebaseConfig = ∅)
     || negb (truthy (prop firebaseConfig "projectId"))
  then None
  else match throws with
       | Some InitializeApp | Some GetFirestore => None
       | Some GetStorage | None => Some (Db (prop firebaseConfig "projectId"))
       end.

(** [{ id: doc.id, ...doc.data() }]: a field named [id] in the data wins. *)
Definition with_id (id : string) (data : obj) : obj :=
  data ∪ {["id" := VStr id]}.

Definition addDocument (db : option dbref) (fault : option error)
    (collectionPath : string) (data : obj) (fs : t) : t * (error + string) :=
  match db with
  | None => (fs, inl "Firestore is not initialized.")
  | Some _ =>
      let '(fs, cref) := collection collectionPath fs in
      match cref with
      | inl e => (fs, inl e)
      | inr _ =>
          addDoc fault collectionPath
            (spread_set data "createdAt" VServerTimestamp) fs
      end
  end.

(** The four helpers below build their reference with
    [doc(db, collectionPath, docId)] inside the [try] and hand it to the
    call.  They are modelled from the call on, for references that [doc]
    accepts ([valid_document_path]); [fault] is the error of the call to
    the store. *)
Definition setDocument (db : option dbref) (fault : option error)
    (collectionPath docId : string) (data : obj) (fs : t)
  : t * (error + unit) :=
  match db with
  | None => (fs, inl "Firestore is not initialized.")
  | Some _ =>
      setDoc fault true collectionPath docId
        (spread_set data "updatedAt" VServerTimestamp) fs
  end.

Definition updateDocument (db : option dbref) (fault : option error)
    (collectionPath docId : string) (data : obj) (fs : t)
  : t * (error + unit) :=
  match db with
  | None => (fs, inl "Firestore is not initialized.")
  | Some _ =>
      updateDoc fault collectionPath docId
        (spread_set data "updatedAt" VServerTimestamp) fs
  end.

(** Returns [None] for JavaScript's [null]. *)
Definition getDocument (db : option dbref) (fault : option error)
    (collectionPath docId : string) (fs : t) : t * (error + option obj) :=
  match db with
  | None => (fs, inl "Firestore is not initialized.")
  | Some _ =>
      let '(fs, r) := getDoc fault collectionPath docId fs in
      match r with
      | inl e => (fs, inl e)
      | inr (Some data) => (fs, inr (Some (with_id docId data)))
      | inr None => (fs, inr None)
      end
  end.

Definition deleteDocument (db : option dbref) (fault : option error)
    (collectionPath docId : string) (fs : t) : t * (error + unit) :=
  match db with
  | None => (fs, inl "Firestore is not initialized.")
  | Some _ => deleteDoc fault collectionPath docId fs
  end.

(** The body of [querySnapshot.forEach((doc) => documents.push(...))]. *)
Definition push_all (querySnapshot : list (string * obj)) : list obj :=
  foldl (λ (documents : list obj) doc, (documents ++ [with_id doc.1 doc.2])%list)
        [] querySnapshot.

Definition getAllDocuments (db : option dbref) (fault : option error)
    (collectionPath : string) (fs : t) : t * (error + list obj) :=
  match db with
  | None => (fs, inl "Firestore is not initialized.")
  | Some _ =>
      let '(fs, cref) := collection collectionPath fs in
      match cref with
      | inl e => (fs, inl e)
      | inr q =>
          let '(fs, r) := getDocs fault q fs in
          match r with
          | inl e => (fs, inl e)
          | inr querySnapshot => (fs, inr (push_all querySnapshot))
          end
      end
  end.

(** What a [listenTo...] call leaves behind. *)
Inductive subscription :=
  | NoListener (reported : error)
      (* [onError(reported)] was called; the unsubscribe returned is a no-op *)
  | Thrown (thrown : error)
      (* the call threw: nothing was returned, [onError] was not called and
         no listener was registered *)
  | DocumentListener (path id : string)
  | CollectionListener (q : query).

(** [doc(db, collectionPath, docId)] is outside any [try]: on an invalid
    reference the call throws. *)
Definition listenToDocument (db : option dbref) (collectionPath docId : string)
    (fs : t) : t * subscription :=
  match db with
  | None => (fs, NoListener "Firestore database is not initialized.")
  | Some _ =>
      match doc collectionPath docId with
      | inl e => (fs, Thrown e)
      | inr docRef =>
          (onSnapshotDoc docRef.1 docRef.2 fs,
           DocumentListener docRef.1 docRef.2)
      end
  end.

(** The snapshot handler of [listenToDocument]: the value handed to
    [callback], [None] for [null]. *)
Definition document_next (docId : string) (docSnap : option obj) : option obj :=
  match docSnap with
  | Some data => Some (with_id docId data)
  | None => None
  end.

(** [conditions.forEach(condition => q = query(q, where(...)))]: the loop
    ends at the first filter the SDK throws on. *)
Fixpoint apply_conditions (sdk : validation) (conditions : list condition)
    (q : query) (fs : t) : t * (error + query) :=
  match conditions with
  | [] => (fs, inr q)
  | condition :: conditions =>
      let '(fs, r) := query_where (sdk q condition) q condition fs in
      match r with
      | inl e => (fs, inl e)
      | inr q => apply_conditions sdk conditions q fs
      end
  end.

(** The loop over [conditions] is outside the [try]: what [where] or
    [query] throws leaves [listenToCollection] as an exception. *)
Definition listenToCollection (sdk : validation) (db : option dbref)
    (collectionPath : string) (conditions : list condition) (fs : t)
  : t * subscription :=
  match db with
  | None => (fs, NoListener "Firestore database is not initialized.")
  | Some _ =>
      let '(fs, cref) := collection collectionPath fs in
      match cref with
      | inl _ =>
          (fs, NoListener "Failed to create collection reference. Database may be uninitialized or path is invalid.")
      | inr q =>
          let '(fs, r) := apply_conditions sdk conditions q fs in
          match r with
          | inl e => (fs, Thrown e)
          | inr q => (onSnapshotQuery q fs, CollectionListener q)
          end
      end
  end.

(** The snapshot handler of [listenToCollection]: the array handed to
    [callback].  [documents] is a fresh array on every invocation. *)
Definition collection_next (querySnapshot : list (string * obj)) : list obj :=
  push_all querySnapshot.

(** One emission of a live subscription: the SDK hands the handler the
    current snapshot of its target. *)
Definition emission (sub : subscription) (fs : t) : option (list obj) :=
  match sub with
  | CollectionListener q => Some (collection_next (run_query q fs))
  | _ => None
  end.


End FirestoreService.

(** ** context/AuthContext.js *)

Module AuthContext.

(** The Firebase user object. *)
Record fbuser := User { uid : string; email : string }.

#[global] Instance fbuser_eq_dec : EqDecision fbuser.
Proof. solve_decision. Defined.

(** The React state of [AuthProvider] that the context publishes. *)
Record session := Session {
  isAuthenticated : bool;
  user : option fbuser;
  userRole : val;
  isLoadingAuth : bool;
  userId : option string
}.

(** [useState(false)], [useState(null)], [useState(null)],
    [useState(true)], [useState(null)] *)
Definition initial_session : session := Session false None VNull true None.

Inductive console_entry :=
  | ConsoleError (msg : string) (e : option error)
  | ConsoleWarn (msg : string).

(** Everything outside the component that its code reads or changes. *)
Record world := World {
  sess : session;
  currentUser : option fbuser;       (* Firebase Auth: who is signed in *)
  listening : bool;                  (* an auth-state listener is registered *)
  notifications : list (option fbuser);  (* auth-state changes not yet delivered *)
  SecureStore : gmap string string;
  firestore : Firestore.t;
  console : list console_entry
}.

Definition with_sess (f : session → session) (w : world) : world :=
  World (f (sess w)) (currentUser w) (listening w) (notifications w)
        (SecureStore w) (firestore w) (console w).

Definition with_SecureStore (s : gmap string string) (w : world) : world :=
  World (sess w) (currentUser w) (listening w) (notifications w)
        s (firestore w) (console w).

Definition with_firestore (fs : Firestore.t) (w : world) : world :=
  World (sess w) (currentUser w) (listening w) (notifications w)
        (SecureStore w) fs (console w).

Definition with_console (e : console_entry) (w : world) : world :=
  World (sess w) (currentUser w) (listening w) (notifications w)
        (SecureStore w) (firestore w) (console w ++ [e])%list.

(** Firebase notifies its listeners when the signed-in uid changes. *)
Definition set_currentUser (u : option fbuser) (w : world) : world :=
  let changed := negb (bool_decide (uid <$> currentUser w = uid <$> u)) in
  World (sess w) u (listening w)
        (if listening w && changed then (notifications w ++ [u])%list
         else notifications w)
        (SecureStore w) (firestore w) (console w).

(** [onAuthStateChanged(auth, cb)]: registers the listener; the current
    auth state is its first notification. *)
Definition subscribe (w : world) : world :=
  World (sess w) (currentUser w) true
        (notifications w ++ [currentUser w])%list
        (SecureStore w) (firestore w) (console w).

(** Synchronous statements. *)
Inductive effect :=
  | setIsAuthenticated (b : bool)
  | setUser (u : option fbuser)
  | setUserRole (r : val)
  | setIsLoadingAuth (b : bool)
  | setUserId (i : option string)
  | console_error (msg : string) (e : option error)
  | console_warn (msg : string)
  | onAuthStateChanged.

Definition apply_effect (a : effect) (w : world) : world :=
  match a with
  | setIsAuthenticated b =>
      with_sess (λ s, Session b (user s) (userRole s) (isLoadingAuth s) (userId s)) w
  | setUser u =>
      with_sess (λ s, Session (isAuthenticated s) u (userRole s) (isLoadingAuth s) (userId s)) w
  | setUserRole r =>
      with_sess (λ s, Session (isAuthenticated s) (user s) r (isLoadingAuth s) (userId s)) w
  | setIsLoadingAuth b =>
      with_sess (λ s, Session (isAuthenticated s) (user s) (userRole s) b (userId s)) w
  | setUserId i =>
      with_sess (λ s, Session (isAuthenticated s) (user s) (userRole s) (isLoadingAuth s) i) w
  | console_error msg e => with_console (ConsoleError msg e) w
  | console_warn msg => with_console (ConsoleWarn msg) w
  | onAuthStateChanged => subscribe w
  end.

(** Asynchronous calls, indexed by what their promise resolves to. *)
Inductive call : Type → Type :=
  | signInWithEmailAndPassword (email password : string) : call fbuser
  | createUserWithEmailAndPassword (email password : string) : call fbuser
  | signInWithCustomToken (token : string) : call fbuser
  | signOut : call unit
  | getItemAsync (key : string) : call (option string)
  | setItemAsync (key : string) (v : val) : call unit
  | deleteItemAsync (key : string) : call unit
  | getDoc (path id : string) : call (option obj)
  | setDoc (path id : string) (data : obj) : call unit.

(** How the collaborators answer.  The three credential checks are decided
    by Firebase Auth alone; the faults make the matching calls reject.  A
    call made through a handle that initialisation never set is one of the
    rejections. *)
Record env := Env {
  signIn_result : error + fbuser;
  signUp_result : error + fbuser;
  token_result : error + fbuser;
  signOut_fault : option error;
  secure_fault : option error;
  store_fault : option error
}.

Definition authenticate (r : error + fbuser) (w : world)
  : world * (error + fbuser) :=
  match r with
  | inl e => (w, inl e)
  | inr u => (set_currentUser (Some u) w, inr u)
  end.

Definition perform (ev : env) {A} (c : call A) (w : world)
  : world * (error + A) :=
  match c in call A return world * (error + A) with
  | signInWithEmailAndPassword _ _ => authenticate (signIn_result ev) w
  | createUserWithEmailAndPassword _ _ => authenticate (signUp_result ev) w
  | signInWithCustomToken _ => authenticate (token_result ev) w
  | signOut =>
      match signOut_fault ev with
      | Some e => (w, inl e)
      | None => (set_currentUser None w, inr tt)
      end
  | getItemAsync key =>
      match secure_fault ev with
      | Some e => (w, inl e)
      | None => (w, inr (SecureStore w !! key))
      end
  | setItemAsync key v =>
      match secure_fault ev with
      | Some e => (w, inl e)
      | None =>
          match v with
          | VStr s => (with_SecureStore (<[key := s]> (SecureStore w)) w, inr tt)
          | _ => (w, inl "Invalid value provided to SecureStore. Values must be strings.")
          end
      end
  | deleteItemAsync key =>
      match secure_fault ev with
      | Some e => (w, inl e)
      | None => (with_SecureStore (delete key (SecureStore w)) w, inr tt)
      end
  | getDoc path id =>
      let '(fs, r) := Firestore.getDoc (store_fault ev) path id (firestore w) in
      (with_firestore fs w, r)
  | setDoc path id data =>
      let '(fs, r) := Firestore.setDoc (store_fault ev) false path id data (firestore w) in
      (with_firestore fs w, r)
  end.

(** The code of an [async] function: statements up to the next [await],
    then the rest as a function of how the awaited promise settles. *)
Inductive prog :=
  | Return
  | Throw (e : error)
  | Do (a : effect) (k : prog)
  | Await {A} (c : call A) (k : error + A → prog).

(** An [await] inside a [try] block whose handler is [catch]. *)
Definition try_await {A} (c : call A) (catch : error → prog) (k : A → prog)
  : prog :=
  Await c (λ r, match r with inl e => catch e | inr x => k x end).

Declare Scope prog_scope.
Delimit Scope prog_scope with prog.
Bind Scope prog_scope with prog.
Notation "a ;; k" := (Do a k)
  (at level 100, k at level 200, right associativity) : prog_scope.
Notation "'let_await' x := c 'catch' h 'in' k" :=
  (try_await c h (λ x, k))
  (at level 10, x binder, c at level 99, h at level 99, k at level 200)
  : prog_scope.

(** An [await] outside every [try] block: the rejection is the function's. *)
Definition uncaught (e : error) : prog := Throw e.

(** The profiles collection of a user.  [projectId] stands for
    [firebaseConfig.projectId || __app_id || 'default-app-id'];
    [firebaseConfig.js] is not among the sources. *)
Definition profilesPath (projectId currentUserId : string) : string :=
  "artifacts/" +:+ projectId +:+ "/users/" +:+ currentUserId +:+ "/profiles".

(** The [onAuthStateChanged] callback after [getDoc] has resolved. *)
Definition resolve_fetched (userDocSnap : option obj) : prog :=
  (match userDocSnap with
   | Some userData =>
       let role := prop userData "role" in
       setUserRole role ;;
       setIsAuthenticated true ;;
       let_await _ := setItemAsync "userRole" role catch uncaught in
       setIsLoadingAuth false ;;
       Return
   | None =>
       console_warn "User profile not found in Firestore for authenticated user. Logging out." ;;
       setIsAuthenticated false ;;
       setUser None ;;
       setUserRole VNull ;;
       setUserId None ;;
       let_await _ := deleteItemAsync "userRole" catch uncaught in
       let_await _ := signOut catch uncaught in
       setIsLoadingAuth false ;;
       Return
   end)%prog.

(** The [onAuthStateChanged] callback.  Firebase invokes it and drops the
    promise it returns, so none of its awaits has a handler. *)
Definition authStateChanged (projectId : string) (currentUser : option fbuser)
  : prog :=
  (match currentUser with
   | Some cu =>
       setUser (Some cu) ;;
       let currentUserId := uid cu in
       setUserId (Some currentUserId) ;;
       let_await storedRole := getItemAsync "userRole" catch uncaught in
       if truthy (of_nullable storedRole) then
         setUserRole (of_nullable storedRole) ;;
         setIsAuthenticated true ;;
         setIsLoadingAuth false ;;
         Return
       else
         let_await userDocSnap :=
           getDoc (profilesPath projectId currentUserId) currentUserId
           catch uncaught in
         resolve_fetched userDocSnap
   | None =>
       setUser None ;;
       setIsAuthenticated false ;;
       setUserRole VNull ;;
       setUserId None ;;
       let_await _ := deleteItemAsync "userRole" catch uncaught in
       setIsLoadingAuth false ;;
       Return
   end)%prog.

(** The [catch] block of [initializeFirebase]. *)
Definition initializeFirebase_catch (error : error) : prog :=
  (console_error "Error initializing Firebase or during initial auth check:" (Some error) ;;
   setIsLoadingAuth false ;;
   setIsAuthenticated false ;;
   setUser None ;;
   setUserRole VNull ;;
   setUserId None ;;
   let_await _ := deleteItemAsync "userRole" catch uncaught in
   Return)%prog.

(** [initializeFirebase]: [sdk_throws] is the error of [initializeApp],
    [initializeAuth] or [getFirestore], if one of them throws;
    [initialAuthToken] is [__initial_auth_token], if defined.  The [try]
    block ends when the listener is registered.  The handles [app], [auth]
    and [db] that it keeps in React state are not modelled. *)
Definition initializeFirebase (sdk_throws : option error)
    (initialAuthToken : option string) : prog :=
  (match sdk_throws with
   | Some e => initializeFirebase_catch e
   | None =>
       if truthy (of_nullable initialAuthToken) then
         let_await _ := signInWithCustomToken (default "" initialAuthToken)
           catch initializeFirebase_catch in
         onAuthStateChanged ;; Return
       else
         onAuthStateChanged ;; Return
   end)%prog.

(** [login]: the [finally] block is the [setIsLoadingAuth false] that ends
    both the [try] path and the [catch] path. *)
Definition login_catch (error : error) : prog :=
  (console_error "Login failed:" (Some error) ;;
   setIsAuthenticated false ;;
   setUser None ;;
   setUserRole VNull ;;
   setIsLoadingAuth false ;;
   Throw error)%prog.

Definition login (projectId email password : string) : prog :=
  (setIsLoadingAuth true ;;
   let_await currentUser := signInWithEmailAndPassword email password
     catch login_catch in
   setUser (Some currentUser) ;;
   let currentUserId := uid currentUser in
   setUserId (Some currentUserId) ;;
   let_await userDocSnap :=
     getDoc (profilesPath projectId currentUserId) currentUserId
     catch login_catch in
   match userDocSnap with
   | Some userData =>
       let role := prop userData "role" in
       setUserRole role ;;
       setIsAuthenticated true ;;
       let_await _ := setItemAsync "userRole" role catch login_catch in
       setIsLoadingAuth false ;;
       Return
   | None =>
       console_error "User profile not found after login. Role not set. Forcing logout." None ;;
       setIsAuthenticated false ;;
       let_await _ := signOut catch login_catch in
       login_catch "User profile not found. Please contact support or register again."
   end)%prog.

(** [agentDetails], as [register]'s documentation describes it. *)
Record agent_details := AgentDetails {
  agentAccountType : val;
  lasreraNumber : val;
  cacNumber : option val
}.

Definition agent_fields (d : agent_details) : obj :=
  let o : obj := {[ "agentAccountType" := agentAccountType d;
                    "lasreraNumber" := lasreraNumber d ]} in
  match cacNumber d with
  | Some c => <["cacNumber" := c]> o
  | None => o
  end.

(** The object literal [profileData]; [now] is what [new Date()] reads. *)
Definition profileData (now : Z) (email role firstName lastName phoneNumber
    currentUserId : string) (agentDetails : option agent_details) : obj :=
  let base : obj :=
    {[ "email" := VStr email;
       "role" := VStr role;
       "firstName" := VStr firstName;
       "lastName" := VStr lastName;
       "phoneNumber" := VStr phoneNumber;
       "createdAt" := VDate now;
       "userId" := VStr currentUserId ]} in
  match agentDetails with
  | Some d => if String.eqb role "agent" then agent_fields d ∪ base else base
  | None => base
  end.

Definition register_catch (error : error) : prog :=
  (console_error "Registration failed:" (Some error) ;;
   setIsAuthenticated false ;;
   setUser None ;;
   setUserRole VNull ;;
   setIsLoadingAuth false ;;
   Throw error)%prog.

Definition register (projectId : string) (now : Z)
    (email password role firstName lastName phoneNumber : string)
    (agentDetails : option agent_details) : prog :=
  (setIsLoadingAuth true ;;
   let_await currentUser := createUserWithEmailAndPassword email password
     catch register_catch in
   setUser (Some currentUser) ;;
   let currentUserId := uid currentUser in
   setUserId (Some currentUserId) ;;
   let_await _ :=
     setDoc (profilesPath projectId currentUserId) currentUserId
       (profileData now email role firstName lastName phoneNumber
          currentUserId agentDetails)
     catch register_catch in
   setUserRole (VStr role) ;;
   setIsAuthenticated true ;;
   let_await _ := setItemAsync "userRole" (VStr role) catch register_catch in
   setIsLoadingAuth false ;;
   Return)%prog.

Definition logout_catch (error : error) : prog :=
  (console_error "Logout failed:" (Some error) ;;
   setIsLoadingAuth false ;;
   Throw error)%prog.

Definition logout : prog :=
  (setIsLoadingAuth true ;;
   let_await _ := signOut catch logout_catch in
   setIsLoadingAuth false ;;
   Return)%prog.

(** *** Running one function to completion

    Nothing else runs in between, and every call of the function is
    answered as [ev] says.  No function awaits the same collaborator call
    twice on one path. *)

Inductive outcome := Resolved | Rejected (e : error).

Fixpoint run (ev : env) (p : prog) (w : world) : world * outcome :=
  match p with
  | Return => (w, Resolved)
  | Throw e => (w, Rejected e)
  | Do a k => run ev k (apply_effect a w)
  | Await c k => let '(w, r) := perform ev c w in run ev (k r) w
  end.

(** *** The event loop

    JavaScript runs one piece of code at a time, up to its next [await];
    the calls in flight settle in any order.  [Tick] executes the next
    statement of the running code, so every intermediate state of a
    synchronous block is a state of the machine. *)

Inductive origin :=
  | Mounted                       (* the effect that runs [initializeFirebase] *)
  | Notified (u : option fbuser)  (* a run of the auth-state callback *)
  | Called (name : string).       (* [login], [register] or [logout] *)

Inductive suspended :=
  | Suspended (o : origin) {A} (c : call A) (k : error + A → prog).

Record machine := Machine {
  mworld : world;
  running : option (origin * prog);
  awaiting : list suspended;
  mounted : bool;
  latest : option (option fbuser);     (* the last notification delivered *)
  rejections : list (origin * error)   (* promises that ended rejected *)
}.

Inductive command :=
  | CallLogin (email password : string)
  | CallRegister (now : Z) (email password role firstName lastName
                  phoneNumber : string) (agentDetails : option agent_details)
  | CallLogout.

Definition command_name (c : command) : string :=
  match c with
  | CallLogin _ _ => "login"
  | CallRegister _ _ _ _ _ _ _ _ => "register"
  | CallLogout => "logout"
  end.

Definition command_prog (projectId : string) (c : command) : prog :=
  match c with
  | CallLogin email password => login projectId email password
  | CallRegister now email password role firstName lastName phoneNumber agentDetails =>
      register projectId now email password role firstName lastName
        phoneNumber agentDetails
  | CallLogout => logout
  end.

Inductive event :=
  | Tick                           (* the running code executes one statement *)
  | Settle (i : nat) (ev : env)    (* the [i]-th call in flight settles *)
  | Deliver                        (* Firebase delivers the oldest notification *)
  | Mount (sdk_throws : option error) (initialAuthToken : option string)
  | Invoke (c : command).          (* a screen calls a command *)

Definition take_notification (w : world) : option (option fbuser * world) :=
  match notifications w with
  | u :: rest =>
      Some (u, World (sess w) (currentUser w) (listening w) rest
                     (SecureStore w) (firestore w) (console w))
  | [] => None
  end.

Definition step (projectId : string) (e : event) (m : machine)
  : option machine :=
  match running m, e with
  | Some (o, p), Tick =>
      match p with
      | Return =>
          Some (Machine (mworld m) None (awaiting m) (mounted m) (latest m)
                        (rejections m))
      | Throw err =>
          Some (Machine (mworld m) None (awaiting m) (mounted m) (latest m)
                        (rejections m ++ [(o, err)])%list)
      | Do a k =>
          Some (Machine (apply_effect a (mworld m)) (Some (o, k)) (awaiting m)
                        (mounted m) (latest m) (rejections m))
      | Await c k =>
          Some (Machine (mworld m) None (awaiting m ++ [Suspended o c k])%list
                        (mounted m) (latest m) (rejections m))
      end
  | Some _, _ => None
  | None, Tick => None
  | None, Settle i ev =>
      match awaiting m !! i with
      | Some (Suspended o c k) =>
          let '(w, r) := perform ev c (mworld m) in
          Some (Machine w (Some (o, k r)) (delete i (awaiting m)) (mounted m)
                        (latest m) (rejections m))
      | None => None
      end
  | None, Deliver =>
      match take_notification (mworld m) with
      | Some (u, w) =>
          Some (Machine w (Some (Notified u, authStateChanged projectId u))
                        (awaiting m) (mounted m) (Some u) (rejections m))
      | None => None
      end
  | None, Mount sdk_throws initialAuthToken =>
      if mounted m then None
      else Some (Machine (mworld m)
                   (Some (Mounted, initializeFirebase sdk_throws initialAuthToken))
                   (awaiting m) true (latest m) (rejections m))
  | None, Invoke c =>
      Some (Machine (mworld m)
              (Some (Called (command_name c), command_prog projectId c))
              (awaiting m) (mounted m) (latest m) (rejections m))
  end.

Fixpoint exec (projectId : string) (es : list event) (m : machine)
  : option machine :=
  match es with
  | [] => Some m
  | e :: es =>
      match step projectId e m with
      | Some m' => exec projectId es m'
      | None => None
      end
  end.

(** Process start: nothing mounted, no listener, the session as
    [useState] initialises it.  Firebase Auth may hold a persisted user. *)
Definition start (persisted : option fbuser) (store : gmap string string)
    (fs : Firestore.t) : machine :=
  Machine (World initial_session persisted false [] store fs [])
          None [] false None [].

Definition reachable (projectId : string) (m0 m : machine) : Prop :=
  ∃ es, exec projectId es m0 = Some m.

(** A role-resolution pass is a run of the callback for a present identity. *)
Definition is_resolution (o : origin) : bool :=
  match o with
  | Notified (Some _) => true
  | _ => false
  end.

Definition suspended_origin (s : suspended) : origin :=
  match s with
  | Suspended o _ _ => o
  end.

Definition in_flight (m : machine) : nat :=
  length (filter (λ s, is_resolution (suspended_origin s) = true) (awaiting m))
  + match running m with
    | Some (o, _) => if is_resolution o then 1 else 0
    | None => 0
    end.

(** The next statement writes the session state or the role cache. *)
Definition writes (p : prog) : bool :=
  match p with
  | Do (setIsAuthenticated _ | setUser _ | setUserRole _ | setUserId _
        | setIsLoadingAuth _) _ => true
  | Await (setItemAsync _ _) _ | Await (deleteItemAsync _) _ => true
  | _ => false
  end.

(** A pass for [u] is about to write although the latest notification
    delivered is not [u]'s. *)
Definition stale_write (m : machine) : bool :=
  match running m with
  | Some (Notified (Some u), p) =>
      writes p && negb (bool_decide (latest m = Some (Some u)))
  | _ => false
  end.

End AuthContext.


(** ** Vocabulary of the properties *)

Import AuthContext.

(** The error an operation reports when [db] was never set. *)
Definition store_uninitialized (e : error) : Prop :=
  e = "Firestore is not initialized."
  ∨ e = "Firestore database is not initialized.".

(** [v != null] in JavaScript. *)
Definition non_null (v : val) : Prop := v ≠ VNull ∧ v ≠ VUndefined.

(** A profile document carries a role: it has a [role] field that is not
    null. *)
Definition profile_ok (d : obj) : Prop :=
  ∃ role, d !! "role" = Some role ∧ non_null role.

Definition profiles_well_formed (projectId : string) (fs : Firestore.t) : Prop :=
  ∀ u d, Firestore.docs fs !! (profilesPath projectId u, u) = Some d →
         profile_ok d.

(** The session invariant. *)
Definition role_resolved (s : session) : Prop :=
  isAuthenticated s = true → non_null (userRole s).


(** Stale-write protection, as a property of every state the event loop
    reaches from [m0]. *)
Definition stale_write_protection (projectId : string) (m0 : machine) : Prop :=
  ∀ es m, exec projectId es m0 = Some m →
          (in_flight m ≤ 1)%nat ∧ stale_write m = false.

(** *** Support for the invariant proof

    [safe role_set auth_off p]: the code [p] keeps the session invariant
    when started in a state whose role is non-null (if [role_set]) and
    whose [isAuthenticated] is false (if [auth_off]).  What is known is
    forgotten at every [await], where other code may run. *)

Definition is_set (v : val) : bool :=
  match v with
  | VUndefined | VNull => false
  | _ => true
  end.

Definition call_ok (projectId : string) {A} (c : call A) : Prop :=
  match c with
  | getDoc path id => path = profilesPath projectId id
  | setDoc _ _ data => profile_ok data
  | _ => True
  end.

Definition answer_ok {A} (c : call A) : error + A → Prop :=
  match c in call A return error + A → Prop with
  | getDoc _ _ => λ r, ∀ d, r = inr (Some d) → profile_ok d
  | _ => λ _, True
  end.

Fixpoint safe (projectId : string) (role_set auth_off : bool) (p : prog) : Prop :=
  match p with
  | Return | Throw _ => True
  | Do a k =>
      match a with
      | setUserRole r =>
          if is_set r then safe projectId true auth_off k
          else auth_off = true ∧ safe projectId false auth_off k
      | setIsAuthenticated true =>
          role_set = true ∧ safe projectId role_set false k
      | setIsAuthenticated false => safe projectId role_set true k
      | _ => safe projectId role_set auth_off k
      end
  | Await c k =>
      call_ok projectId c ∧ ∀ r, answer_ok c r → safe projectId false false (k r)
  end.

Definition suspended_ok (projectId : string) (s : suspended) : Prop :=
  match s with
  | Suspended _ c k =>
      call_ok projectId c ∧ ∀ r, answer_ok c r → safe projectId false false (k r)
  end.

Definition running_ok (projectId : string) (w : world)
    (r : option (origin * prog)) : Prop :=
  match r with
  | None => True
  | Some (_, p) =>
      ∃ role_set auth_off,
        safe projectId role_set auth_off p
        ∧ (role_set = true → is_set (userRole (sess w)) = true)
        ∧ (auth_off = true → isAuthenticated (sess w) = false)
  end.

Definition machine_ok (projectId : string) (m : machine) : Prop :=
  (isAuthenticated (sess (mworld m)) = true →
   is_set (userRole (sess (mworld m))) = true)
  ∧ profiles_well_formed projectId (firestore (mworld m))
  ∧ Forall (suspended_ok projectId) (awaiting m)
  ∧ running_ok projectId (mworld m) (running m).

(** *** Concrete data used by the examples *)

Definition ada : fbuser := User "uid-ada" "ada@example.com".
Definition bob : fbuser := User "uid-bob" "bob@example.com".

Definition all_well : env :=
  Env (inr ada) (inr ada) (inr ada) None None None.

Definition bob_signs_in : env :=
  Env (inr bob) (inr bob) (inr bob) None None None.

Definition store_down : env :=
  Env (inr ada) (inr ada) (inr ada) None None (Some "unavailable").

Definition empty_store : Firestore.t := Firestore.Store ∅ 1000 [].

Definition two_profiles : Firestore.t :=
  Firestore.Store
    {[ (profilesPath "rentopia" "uid-ada", "uid-ada") := {[ "role" := VStr "renter" ]};
       (profilesPath "rentopia" "uid-bob", "uid-bob") := {[ "role" := VStr "agent" ]} ]}
    1000 [].

Definition signed_out_world (fs : Firestore.t) : world :=
  World initial_session None true [] ∅ fs [].

Definition ada_registers : prog :=
  register "rentopia" 1700000000000 "ada@example.com" "secret" "renter"
           "Ada" "Obi" "08012345678" None.

(** A warm process start for a persisted user whose role is not cached:
    mount, deliver the first notification, run the callback up to its
    pending profile read. *)
Definition boot_to_profile_read : list event :=
  [Mount None None; Tick; Tick; Deliver; Tick; Tick; Tick;
   Settle 0 all_well; Tick].

(** While ada's profile read is pending, bob logs in on the same device;
    his notification is delivered and his pass starts; then ada's read
    completes. *)
Definition race_schedule : list event :=
  (boot_to_profile_read ++
   [Invoke (CallLogin "bob@example.com" "secret"); Tick; Tick;
    Settle 1 bob_signs_in; Tick; Tick; Tick;
    Deliver; Tick; Tick; Tick;
    Settle 0 bob_signs_in])%list.

(** The machine just before ada's read completes. *)
Definition race_pending : machine :=
  default (start (Some ada) ∅ two_profiles)
          (exec "rentopia"
             (boot_to_profile_read ++
              [Invoke (CallLogin "bob@example.com" "secret"); Tick; Tick;
               Settle 1 bob_signs_in; Tick; Tick; Tick;
               Deliver; Tick; Tick; Tick])%list
             (start (Some ada) ∅ two_profiles)).

(** Three payment records, two of them of agent A1. *)
Definition three_payments : Firestore.t :=
  Firestore.Store
    {[ ("payments", "p1") := {[ "agentId" := VStr "A1"; "amount" := VNum 100 ]};
       ("payments", "p2") := {[ "agentId" := VStr "A2"; "amount" := VNum 200 ]};
       ("payments", "p3") := {[ "agentId" := VStr "A1"; "amount" := VNum 300 ]} ]}
    1000 [].

Definition of_agent_A1 : list Firestore.condition :=
  [Firestore.Condition "agentId" Firestore.OpEq (VStr "A1")].

(** Two of the SDK's checks, for the examples: a value that is [undefined]
    and a second [!=] filter are refused. *)
Definition two_checks : Firestore.validation :=
  λ q c,
    if bool_decide (Firestore.value c = VUndefined)
    then Some "Function where() called with invalid data. Unsupported field value: undefined"
    else if bool_decide (Firestore.operator c = Firestore.OpNe)
            && existsb (λ c', bool_decide (Firestore.operator c' = Firestore.OpNe))
                       (Firestore.q_wheres q)
    then Some "Invalid query. You cannot use more than one '!=' filter."
    else None.

(** The rest of ada's pass once her read has completed. *)
Definition race_tail : list event :=
  [Tick; Tick; Tick; Settle 2 all_well; Tick; Tick].

(** The machine at the end of that run. *)
Definition race_outcome : machine :=
  default (start (Some ada) ∅ two_profiles)
          (exec "rentopia" (race_schedule ++ race_tail)%list
                (start (Some ada) ∅ two_profiles)).

(** A cold start with nobody signed in; ada logs in, and her own login
    finishes while the callback's read for her notification is still
    pending; she logs out, the sign-out notification is handled; only then
    does the callback's read complete. *)
Definition logout_race : list event :=
  [Mount None None; Tick; Tick;
   Deliver; Tick; Tick; Tick; Tick; Tick; Settle 0 all_well; Tick; Tick;
   Invoke (CallLogin "ada@example.com" "secret"); Tick; Tick;
   Settle 0 all_well; Tick; Tick; Tick;
   Deliver; Tick; Tick; Tick; Settle 1 all_well; Tick;
   Settle 0 all_well; Tick; Tick; Tick; Settle 1 all_well; Tick; Tick;
   Invoke CallLogout; Tick; Tick; Settle 1 all_well; Tick; Tick;
   Deliver; Tick; Tick; Tick; Tick; Tick; Settle 1 all_well; Tick; Tick;
   Settle 0 all_well; Tick; Tick; Tick; Settle 0 all_well; Tick; Tick].

(** A cold start with nobody signed in and an unreachable store; ada
    registers: sign-up succeeds, her notification starts a pass that gets
    as far as its profile read, the profile write fails, and then the
    pass's read fails as well. *)
Definition failed_registration : list event :=
  [Mount None None; Tick; Tick;
   Deliver; Tick; Tick; Tick; Tick; Tick; Settle 0 store_down; Tick; Tick;
   Invoke (CallRegister 1700000000000 "ada@example.com" "secret" "renter"
             "Ada" "Obi" "08012345678" None); Tick; Tick;
   Settle 0 store_down; Tick; Tick; Tick;
   Deliver; Tick; Tick; Tick; Settle 1 store_down; Tick;
   Settle 0 store_down; Tick; Tick; Tick; Tick; Tick; Tick;
   Settle 0 store_down; Tick].

(** More concrete data. *)

Definition token_rejected : env :=
  Env (inr ada) (inr ada) (inl "invalid-custom-token") None None None.

(** The event loop at rest with ada signed in and authenticated. *)
Definition ada_signed_in : machine :=
  Machine (World (Session true (Some ada) (VStr "renter") false (Some "uid-ada"))
                 (Some ada) true [] {[ "userRole" := "renter" ]} two_profiles [])
          None [] true (Some (Some ada)) [].

(** A store in which ada's profile document has no [role] field. *)
Definition roleless_profile : Firestore.t :=
  Firestore.Store
    {[ (profilesPath "rentopia" "uid-ada", "uid-ada")
       := {[ "email" := VStr "ada@example.com" ]} ]}
    1000 [].

(** A warm start for ada with no cached role: her profile is read, the
    callback adopts its role and tries to cache it. *)
Definition roleless_boot : list event :=
  (boot_to_profile_read
   ++ [Settle 0 all_well; Tick; Tick; Tick; Settle 0 all_well; Tick])%list.

(** A cold start with nobody signed in, up to the end of the first pass. *)
Definition cold_start : list event :=
  [Mount None None; Tick; Tick; Deliver; Tick; Tick; Tick; Tick; Tick;
   Settle 0 all_well; Tick; Tick].

(** ** Further parts of the sources *)

(** [firestorePaths] of [services/firestoreService.js].  [projectId] is the
    text that [${firebaseConfig.projectId}] interpolates. *)
Module firestorePaths.

Definition getPublicListingsCollection (projectId : string) : string :=
  "artifacts/" +:+ projectId +:+ "/public/data/listings".

(** [{ path, docId }] *)
Definition getUserProfileDoc (projectId userId : string) : string * string :=
  ("artifacts/" +:+ projectId +:+ "/users/" +:+ userId +:+ "/profiles", userId).

Definition getAgentListingsCollection (projectId agentId : string) : string :=
  "artifacts/" +:+ projectId +:+ "/users/" +:+ agentId +:+ "/agentListings".

Definition getRenterApplicationsCollection (projectId renterId : string) : string :=
  "artifacts/" +:+ projectId +:+ "/users/" +:+ renterId +:+ "/applications".

Definition getPublicPaymentsCollection (projectId : string) : string :=
  "artifacts/" +:+ projectId +:+ "/public/data/payments".

End firestorePaths.

(** One emission of a document subscription: the SDK hands the handler of
    [listenToDocument] the current snapshot of the document. *)
Definition document_emission (sub : FirestoreService.subscription)
    (fs : Firestore.t) : option (option obj) :=
  match sub with
  | FirestoreService.DocumentListener path id =>
      Some (FirestoreService.document_next id (Firestore.docs fs !! (path, id)))
  | _ => None
  end.

(** The part of [login] that follows the profile read, for stating how a
    run of [login] continues from there. *)
Definition login_fetched (userDocSnap : option obj) : prog :=
  (match userDocSnap with
   | Some userData =>
       let role := prop userData "role" in
       setUserRole role ;;
       setIsAuthenticated true ;;
       let_await _ := setItemAsync "userRole" role catch login_catch in
       setIsLoadingAuth false ;;
       Return
   | None =>
       console_error "User profile not found after login. Role not set. Forcing logout." None ;;
       setIsAuthenticated false ;;
       let_await _ := signOut catch login_catch in
       login_catch "User profile not found. Please contact support or register again."
   end)%prog.

(** ** app/_layout.jsx *)

Module RootLayout.

(** The redirect effect of [RootLayoutContent]: the route it hands to
    [router.replace], if any.  [fontError] tells whether the font error is
    non-null. *)
Definition redirect (isAuthenticated : bool) (userRole : val)
    (isLoadingAuth fontsLoaded fontError : bool) : option string :=
  if negb isLoadingAuth && (fontsLoaded || fontError) then
    if isAuthenticated then
      if bool_decide (userRole = VStr "renter") then Some "/(renter)"
      else if bool_decide (userRole = VStr "agent") then Some "/(agent)"
      else Some "/(renter)"
    else Some "/(auth)/login"
  else None.

(** Whether the component renders the loading indicator instead of the
    stack. *)
Definition shows_loading (isLoadingAuth fontsLoaded fontError : bool) : bool :=
  negb fontsLoaded && negb fontError || isLoadingAuth.

End RootLayout.

(** ** context/UserContext.js

    [firebaseConfig.js] is not among the sources; its fields are taken to be
    strings. *)

Module UserContext.

Record state := State {
  userProfile : option obj;
  isLoadingProfile : bool;
  error : option string
}.

(** [useState(null)], [useState(true)], [useState(null)] *)
Definition initial_state : state := State None true None.

(** [!Object.keys(firebaseConfig).length || !firebaseConfig.projectId] *)
Definition config_incomplete (firebaseConfig : gmap string string) : bool :=
  bool_decide (firebaseConfig = ∅)
  || negb (truthy (of_nullable (firebaseConfig !! "projectId"))).

(** [firebaseConfig.appId || firebaseConfig.projectId], as the text the path
    template interpolates; it is only used once [projectId] is known to be
    a non-empty string. *)
Definition localAppId (firebaseConfig : gmap string string) : string :=
  if truthy (of_nullable (firebaseConfig !! "appId"))
  then default "" (firebaseConfig !! "appId")
  else default "" (firebaseConfig !! "projectId").

(** One run of the effect's [fetchUserProfile]: the state it leaves and the
    document it starts listening to, if any.  [sdk_throws] is the error of
    [initializeApp], [getFirestore], [doc] or [onSnapshot], if one throws. *)
Definition fetchUserProfile (firebaseConfig : gmap string string)
    (sdk_throws : option string) (userId : option string)
    (isAuthenticated isLoadingAuth : bool) (st : state)
  : state * option (string * string) :=
  if negb isLoadingAuth && isAuthenticated && truthy (of_nullable userId) then
    if config_incomplete firebaseConfig then
      (State (userProfile st) false None, None)
    else
      match sdk_throws with
      | Some err => (State None false (Some err), None)
      | None =>
          (State (userProfile st) true None,
           Some (AuthContext.profilesPath (localAppId firebaseConfig)
                   (default "" userId),
                 default "" userId))
      end
  else if negb isAuthenticated then (State None false None, None)
  else (st, None).

(** The snapshot handler of the listener. *)
Definition on_snapshot (docId : string) (docSnap : option obj) (st : state) : state :=
  match docSnap with
  | Some data => State (Some (FirestoreService.with_id docId data)) false (error st)
  | None => State None false (error st)
  end.

(** The error handler of the listener. *)
Definition on_error (err : string) (st : state) : state :=
  State None false (Some err).

(** What the listener delivers for a state of the store. *)
Definition deliver (target : string * string) (fs : Firestore.t) (st : state)
  : state :=
  on_snapshot target.2 (Firestore.docs fs !! target) st.

End UserContext.

(** ** app/(auth)/register.js

    Strings stand for sequences of code units, so [String.length] is the
    JavaScript [length]. *)

Module RegisterScreen.

(** The form state of [RegisterScreen]. *)
Record form := Form {
  firstName : string;
  lastName : string;
  email : string;
  phoneNumber : string;
  password : string;
  confirmPassword : string;
  selectedRole : option string;
  agentAccountType : option string;
  lasreraNumber : string;
  cacNumber : string
}.

(** [!s] for a string. *)
Definition blank (s : string) : bool := String.eqb s "".

(** [!o] for a string-or-null. *)
Definition unset (o : option string) : bool := negb (truthy (of_nullable o)).

Definition is_digit (c : ascii) : bool :=
  (48 <=? nat_of_ascii c)%nat && (nat_of_ascii c <=? 57)%nat.

(** [/^\d{10,15}$/.test(phoneNumber)] *)
Definition phone_valid (phoneNumber : string) : bool :=
  forallb is_digit (String.list_ascii_of_string phoneNumber)
  && (10 <=? String.length phoneNumber)%nat
  && (String.length phoneNumber <=? 15)%nat.

(** [s || null] *)
Definition or_null (s : string) : val :=
  if String.eqb s "" then VNull else VStr s.

(** The arguments of a call of [register].  For a role other than agent the
    screen passes an empty object as [agentDetails], which [register] never
    reads; [None] stands for it. *)
Record register_call := RegisterCall {
  call_email : string;
  call_password : string;
  call_role : string;
  call_firstName : string;
  call_lastName : string;
  call_phoneNumber : string;
  call_agentDetails : option AuthContext.agent_details
}.

(** [handleRegister] up to the call of [register]: the message it shows, or
    the call it makes. *)
Definition handleRegister (f : form) : string + register_call :=
  if blank (firstName f) || blank (lastName f) || blank (email f)
     || blank (phoneNumber f) || blank (password f)
     || blank (confirmPassword f) || unset (selectedRole f)
  then inl "Please fill in all required fields and select a role."
  else if (String.length (password f) <? 6)%nat
  then inl "Password must be at least 6 characters long."
  else if negb (String.eqb (password f) (confirmPassword f))
  then inl "Passwords do not match."
  else if negb (phone_valid (phoneNumber f))
  then inl "Please enter a valid phone number (10-15 digits)."
  else
    let role := default "" (selectedRole f) in
    let is_agent := String.eqb role "agent" in
    let is_company := bool_decide (agentAccountType f = Some "company") in
    if is_agent && unset (agentAccountType f)
    then inl "Please specify if you are an Individual or a Company."
    else if is_agent && blank (lasreraNumber f)
    then inl "LASRERA License Number is required for agents."
    else if is_agent && is_company && blank (cacNumber f)
    then inl "CAC Registration Number is required for company agents."
    else
      inr (RegisterCall (email f) (password f) role (firstName f) (lastName f)
             (phoneNumber f)
             (if is_agent then
                Some (AuthContext.AgentDetails
                        (or_null (default "" (agentAccountType f)))
                        (or_null (lasreraNumber f))
                        (if is_company then Some (or_null (cacNumber f)) else None))
              else None)).

End RegisterScreen.

(** ** app/(agent)/listings/create.js: the rows and the images of the form *)

Module CreateListing.

(** [{ key, value }] *)
Record charge := Charge { key : string; value : string }.

(** The [field] argument of [handleServiceChargeChange]: ['key'] or
    ['value']. *)
Inductive field := Key | Value.

(** [useState([{ key: '', value: '' }])] *)
Definition initial_serviceCharges : list charge := [Charge "" ""].

Definition addServiceChargeRow (serviceCharges : list charge) : list charge :=
  (serviceCharges ++ [Charge "" ""])%list.

(** [serviceCharges.filter((_, i) => i !== index)] *)
Definition without_index (index : nat) (serviceCharges : list charge) : list charge :=
  (filter (λ p : nat * charge, p.1 ≠ index) (imap pair serviceCharges)).*2.

(** The rows and the error message [removeServiceChargeRow] sets, if any. *)
Definition removeServiceChargeRow (index : nat) (serviceCharges : list charge)
  : list charge * option string :=
  if (1 <? length serviceCharges)%nat
  then (without_index index serviceCharges, None)
  else (serviceCharges, Some "At least one service charge row is required.").

Definition set_field (f : field) (text : string) (row : charge) : charge :=
  match f with
  | Key => Charge text (value row)
  | Value => Charge (key row) text
  end.

(** [handleServiceChargeChange]: [None] when [newServiceCharges[index]] is
    undefined and the assignment throws.  The copy is shallow, so the row
    assigned to is also the row of the previous array; only the new state
    is read afterwards. *)
Definition handleServiceChargeChange (index : nat) (f : field) (text : string)
    (serviceCharges : list charge) : option (list charge) :=
  match serviceCharges !! index with
  | Some row => Some (<[index := set_field f text row]> serviceCharges)
  | None => None
  end.

(** What the user does to the rows. *)
Inductive row_action :=
  | AddRow
  | RemoveRow (index : nat)
  | ChangeRow (index : nat) (f : field) (text : string).

(** The rows after an action; a handler that throws leaves the state as it
    was. *)
Definition after_row_action (serviceCharges : list charge) (a : row_action)
  : list charge :=
  match a with
  | AddRow => addServiceChargeRow serviceCharges
  | RemoveRow index => (removeServiceChargeRow index serviceCharges).1
  | ChangeRow index f text =>
      default serviceCharges (handleServiceChargeChange index f text serviceCharges)
  end.

(** The state update of [pickImage] when permission was granted and the
    pick was not cancelled, for the assets picked; an asset may lack its
    [uri]. *)
Definition add_picked (assets : list (option string)) (prevImages : list string)
  : list string :=
  let newImages :=
    omap (λ uri : option string,
            if truthy (of_nullable uri) then uri else None) assets in
  take 10 (prevImages ++ newImages)%list.

Definition removeImage (uriToRemove : string) (prevImages : list string)
  : list string :=
  filter (λ uri, uri ≠ uriToRemove) prevImages.

Inductive image_action :=
  | Pick (assets : list (option string))
  | Remove (uriToRemove : string).

Definition after_image_action (images : list string) (a : image_action)
  : list string :=
  match a with
  | Pick assets => add_picked assets images
  | Remove uriToRemove => removeImage uriToRemove images
  end.

End CreateListing.

(** * Properties of the Firestore service *)

Section ServiceFacts.
Import Firestore FirestoreService.

Lemma push_all_map (querySnapshot : list (string * obj)) :
  push_all querySnapshot = map (λ d, with_id d.1 d.2) querySnapshot.
Proof.
  unfold push_all.
  enough (H : ∀ acc : list obj,
             foldl (λ (documents : list obj) doc,
                      (documents ++ [with_id doc.1 doc.2])%list) acc querySnapshot
             = (acc ++ map (λ d, with_id d.1 d.2) querySnapshot)%list)
    by apply (H []).
  induction querySnapshot as [|d l IH]; intros acc; simpl.
  - by rewrite app_nil_r.
  - rewrite IH. by rewrite <- app_assoc.
Qed.

Lemma apply_conditions_accepted sdk conditions q fs :
  accepts sdk q conditions = true →
  ∃ fs', apply_conditions sdk conditions q fs
         = (fs', inr (Query (q_path q) (q_wheres q ++ conditions)%list))
         ∧ docs fs' = docs fs.
Proof.
  revert q fs. induction conditions as [|c cs IH]; intros q fs Hacc; simpl.
  - exists fs. rewrite app_nil_r. by destruct q.
  - simpl in Hacc. destruct (sdk q c) as [e|]; [done|]. simpl.
    destruct (IH _ (log (CWhere c) fs) Hacc) as (fs' & -> & Hdocs).
    exists fs'. simpl. by rewrite <- app_assoc.
Qed.

Lemma apply_conditions_refused sdk conditions q fs :
  accepts sdk q conditions = false →
  ∃ fs' e, apply_conditions sdk conditions q fs = (fs', inl e)
           ∧ docs fs' = docs fs.
Proof.
  revert q fs. induction conditions as [|c cs IH]; intros q fs Hacc; simpl.
  - done.
  - simpl in Hacc. destruct (sdk q c) as [e|]; simpl.
    + by exists (log (CWhere c) fs), e.
    + apply (IH _ (log (CWhere c) fs) Hacc).
Qed.

Lemma elem_of_collection_docs path fs id (data : obj) :
  (id, data) ∈ collection_docs path fs ↔ docs fs !! (path, id) = Some data.
Proof.
  unfold collection_docs. rewrite list_elem_of_omap. split.
  - intros [[[p i] d] [Hin Heq]]. simpl in Heq.
    destruct (decide (p = path)) as [->|]; [|done].
    injection Heq as -> ->. by apply elem_of_map_to_list in Hin.
  - intros H. exists ((path, id), data). split.
    + by apply elem_of_map_to_list.
    + simpl. by rewrite decide_True.
Qed.

Lemma listenToCollection_query sdk db path conditions fs :
  valid_collection_path path = true →
  accepts sdk (Query path []) conditions = true →
  (listenToCollection sdk (Some db) path conditions fs).2
  = CollectionListener (Query path conditions).
Proof.
  intros Hvalid Hacc. unfold listenToCollection, collection. rewrite Hvalid.
  destruct (apply_conditions_accepted sdk conditions (Query path [])
              (log (CCollection path) fs) Hacc) as (fs' & -> & _).
  done.
Qed.

(** A filter that the SDK refuses makes [listenToCollection] throw: no
    listener is registered and no document is touched. *)
Lemma listenToCollection_refused sdk db path conditions fs :
  valid_collection_path path = true →
  accepts sdk (Query path []) conditions = false →
  ∃ fs' e, listenToCollection sdk (Some db) path conditions fs = (fs', Thrown e)
           ∧ docs fs' = docs fs
           ∧ ∀ now, emission (Thrown e) now = None.
Proof.
  intros Hvalid Hacc. unfold listenToCollection, collection. rewrite Hvalid.
  destruct (apply_conditions_refused sdk conditions (Query path [])
              (log (CCollection path) fs) Hacc) as (fs' & e & -> & Hdocs).
  by exists fs', e.
Qed.

(** C7. Called while [db] is undefined, every CRUD helper rejects with
    "Firestore is not initialized." and both [listenTo...] functions report
    "Firestore database is not initialized." through [onError] and register
    nothing; in each case the store, and with it the record of SDK calls,
    is exactly as before. *)
Theorem uninitialized_fails_fast (sdk : validation) (fault : option error)
    (path id : string) (data : obj) (conditions : list condition) (fs : t) :
  (∃ e, addDocument None fault path data fs = (fs, inl e) ∧ store_uninitialized e)
  ∧ (∃ e, setDocument None fault path id data fs = (fs, inl e) ∧ store_uninitialized e)
  ∧ (∃ e, updateDocument None fault path id data fs = (fs, inl e) ∧ store_uninitialized e)
  ∧ (∃ e, getDocument None fault path id fs = (fs, inl e) ∧ store_uninitialized e)
  ∧ (∃ e, deleteDocument None fault path id fs = (fs, inl e) ∧ store_uninitialized e)
  ∧ (∃ e, getAllDocuments None fault path fs = (fs, inl e) ∧ store_uninitialized e)
  ∧ (∃ e, listenToDocument None path id fs = (fs, NoListener e) ∧ store_uninitialized e)
  ∧ (∃ e, listenToCollection sdk None path conditions fs = (fs, NoListener e)
          ∧ store_uninitialized e).
Proof.
  unfold store_uninitialized.
  repeat split; eexists; (split; [reflexivity | auto]).
Qed.



(** The three payments above: the array delivered holds the two records of
    agent A1 and not the one of agent A2. *)
Example three_payments_delivery :
  map (λ o : obj, o !! "id")
      (default []
         (emission (listenToCollection two_checks (Some (Db (VStr "rentopia")))
                      "payments" of_agent_A1 empty_store).2 three_payments))
  ≡ₚ [Some (VStr "p1"); Some (VStr "p3")].
Proof. vm_compute. apply perm_swap. Qed.

(** A payment whose [agentId] is [null] is not delivered for
    [agentId != "A1"], and a second [!=] filter makes the call throw. *)
Example unassigned_payment_not_delivered :
  let fs :=
    Store {[ ("payments", "p1") := {[ "agentId" := VStr "A1" ]};
             ("payments", "p2") := {[ "agentId" := VStr "A2" ]};
             ("payments", "p4") := {[ "agentId" := VNull ]} ]} 1000 [] in
  map (λ o : obj, o !! "id")
      (default []
         (emission (listenToCollection two_checks (Some (Db (VStr "rentopia")))
                      "payments" [Condition "agentId" OpNe (VStr "A1")]
                      empty_store).2 fs))
  = [Some (VStr "p2")]
  ∧ (listenToCollection two_checks (Some (Db (VStr "rentopia"))) "payments"
       [Condition "agentId" OpNe (VStr "A1"); Condition "amount" OpNe (VNum 0)]
       empty_store).2
    = Thrown "Invalid query. You cannot use more than one '!=' filter.".
Proof. split; vm_compute; reflexivity. Qed.

Lemma addDocument_createdAt db path (data : obj) fs :
  valid_collection_path path = true →
  ∃ fs' id d,
    addDocument (Some db) None path data fs = (fs', inr id)
    ∧ docs fs' !! (path, id) = Some d
    ∧ d !! "createdAt" = Some (VTimestamp (clock fs)).
Proof.
  intros Hvalid. unfold addDocument, collection. rewrite Hvalid.
  unfold addDoc, put. simpl. do 3 eexists. split; [reflexivity|]. simpl.
  split; [apply lookup_insert_eq|].
  unfold written, spread_set. simpl.
  by rewrite lookup_fmap, lookup_insert_eq.
Qed.

Lemma setDocument_updatedAt db path id (data : obj) fs :
  ∃ fs' d,
    setDocument (Some db) None path id data fs = (fs', inr tt)
    ∧ docs fs' !! (path, id) = Some d
    ∧ d !! "updatedAt" = Some (VTimestamp (clock fs)).
Proof.
  unfold setDocument, setDoc, put. simpl. do 2 eexists.
  split; [reflexivity|]. simpl. split; [apply lookup_insert_eq|].
  apply lookup_union_Some_l. unfold written, spread_set. simpl.
  by rewrite lookup_fmap, lookup_insert_eq.
Qed.

Lemma updateDocument_updatedAt db path id (data old : obj) fs :
  docs fs !! (path, id) = Some old →
  ∃ fs' d,
    updateDocument (Some db) None path id data fs = (fs', inr tt)
    ∧ docs fs' !! (path, id) = Some d
    ∧ d !! "updatedAt" = Some (VTimestamp (clock fs)).
Proof.
  intros Hold. unfold updateDocument, updateDoc, put. simpl. rewrite Hold.
  do 2 eexists. split; [reflexivity|]. simpl. split; [apply lookup_insert_eq|].
  apply lookup_union_Some_l. unfold written, spread_set. simpl.
  by rewrite lookup_fmap, lookup_insert_eq.
Qed.

(** C10. [setDocument] on an existing document writes the supplied fields
    and [updatedAt] over it: every other field of the document keeps its
    value, and every other document of the store is untouched. *)
Theorem setDocument_merge_frame (db : dbref) (path id : string)
    (data old : obj) (fs : t) :
  docs fs !! (path, id) = Some old →
  ∃ fs' new,
    setDocument (Some db) None path id data fs = (fs', inr tt)
    ∧ docs fs' !! (path, id) = Some new
    ∧ (∀ f, data !! f = None → f ≠ "updatedAt" → new !! f = old !! f)
    ∧ (∀ f v, data !! f = Some v → f ≠ "updatedAt" →
              new !! f = Some (resolve (clock fs) v))
    ∧ new !! "updatedAt" = Some (VTimestamp (clock fs))
    ∧ (∀ k, k ≠ (path, id) → docs fs' !! k = docs fs !! k).
Proof.
  intros Hold. unfold setDocument, setDoc, put. simpl. rewrite Hold. simpl.
  do 2 eexists. split; [reflexivity|]. simpl.
  split; [apply lookup_insert_eq|].
  unfold written, spread_set. simpl. repeat split.
  - intros f Hf Hne. rewrite lookup_union_r; [done|].
    by rewrite lookup_fmap, lookup_insert_ne, Hf.
  - intros f v Hf Hne. apply lookup_union_Some_l.
    by rewrite lookup_fmap, lookup_insert_ne, Hf.
  - apply lookup_union_Some_l. by rewrite lookup_fmap, lookup_insert_eq.
  - intros k Hk. by rewrite lookup_insert_ne.
Qed.

Lemma setDocument_merge_frame_witness :
  ∃ fs' new,
    setDocument (Some (Db (VStr "rentopia"))) None
      (profilesPath "rentopia" "uid-ada") "uid-ada"
      {[ "phoneNumber" := VStr "08012345678" ]} two_profiles = (fs', inr tt)
    ∧ docs fs' !! (profilesPath "rentopia" "uid-ada", "uid-ada") = Some new
    ∧ (∀ f, ({[ "phoneNumber" := VStr "08012345678" ]} : obj) !! f = None →
            f ≠ "updatedAt" →
            new !! f = ({[ "role" := VStr "renter" ]} : obj) !! f)
    ∧ (∀ f v, ({[ "phoneNumber" := VStr "08012345678" ]} : obj) !! f = Some v →
              f ≠ "updatedAt" →
              new !! f = Some (resolve (clock two_profiles) v))
    ∧ new !! "updatedAt" = Some (VTimestamp (clock two_profiles))
    ∧ (∀ k, k ≠ (profilesPath "rentopia" "uid-ada", "uid-ada") →
            docs fs' !! k = docs two_profiles !! k).
Proof.
  apply (setDocument_merge_frame (Db (VStr "rentopia"))
           (profilesPath "rentopia" "uid-ada") "uid-ada"
           {[ "phoneNumber" := VStr "08012345678" ]}
           {[ "role" := VStr "renter" ]} two_profiles).
  vm_compute. reflexivity.
Defined.

End ServiceFacts.

(** * Properties of the session controller *)

Section SessionFacts.

(** C9. When an identity is present and SecureStore holds a role, the
    callback adopts that role and marks the session authenticated; Firestore
    is left exactly as it was, its record of calls included. *)
Theorem cached_role_adopted (projectId : string) (ev : env) (w : world)
    (cu : fbuser) (storedRole : string) :
  secure_fault ev = None →
  SecureStore w !! "userRole" = Some storedRole →
  storedRole ≠ "" →
  ∃ w',
    run ev (authStateChanged projectId (Some cu)) w = (w', Resolved)
    ∧ userRole (sess w') = VStr storedRole
    ∧ isAuthenticated (sess w') = true
    ∧ user (sess w') = Some cu
    ∧ isLoadingAuth (sess w') = false
    ∧ firestore w' = firestore w.
Proof.
  intros Hsecure Hstored Hne.
  unfold authStateChanged, try_await. simpl. rewrite Hsecure, Hstored. simpl.
  destruct (String.eqb storedRole "") eqn:Heq.
  { apply String.eqb_eq in Heq. done. }
  simpl. eexists. split; [reflexivity|]. done.
Qed.

Lemma cached_role_adopted_witness :
  ∃ w',
    run all_well (authStateChanged "rentopia" (Some ada))
        (World initial_session (Some ada) true [] {[ "userRole" := "renter" ]}
               two_profiles [])
    = (w', Resolved)
    ∧ userRole (sess w') = VStr "renter"
    ∧ isAuthenticated (sess w') = true
    ∧ user (sess w') = Some ada
    ∧ isLoadingAuth (sess w') = false
    ∧ firestore w' = two_profiles.
Proof.
  apply (cached_role_adopted "rentopia" all_well
           (World initial_session (Some ada) true [] {[ "userRole" := "renter" ]}
                  two_profiles []) ada "renter");
    [reflexivity | reflexivity | discriminate].
Defined.

(** C4. When sign-in succeeds and no profile document exists for the
    returned uid, [login] signs out at Firebase Auth and rejects with the
    profile-not-found error; at that point the session is unauthenticated
    with [user] and [userRole] null and loading finished. *)
Theorem login_profile_missing (projectId email password : string) (ev : env)
    (w : world) (u : fbuser) :
  signIn_result ev = inr u →
  store_fault ev = None →
  signOut_fault ev = None →
  Firestore.docs (firestore w) !! (profilesPath projectId (uid u), uid u) = None →
  ∃ w',
    run ev (login projectId email password) w
    = (w', Rejected "User profile not found. Please contact support or register again.")
    ∧ currentUser w' = None
    ∧ isAuthenticated (sess w') = false
    ∧ user (sess w') = None
    ∧ userRole (sess w') = VNull
    ∧ isLoadingAuth (sess w') = false.
Proof.
  intros Hsign Hstore Hout Hdoc.
  unfold login, try_await. simpl. rewrite Hsign. simpl.
  rewrite Hstore. simpl. rewrite Hdoc. simpl. rewrite Hout. simpl.
  eexists. split; [reflexivity|]. done.
Qed.

Lemma login_profile_missing_witness :
  ∃ w',
    run all_well (login "rentopia" "ada@example.com" "secret")
        (signed_out_world empty_store)
    = (w', Rejected "User profile not found. Please contact support or register again.")
    ∧ currentUser w' = None
    ∧ isAuthenticated (sess w') = false
    ∧ user (sess w') = None
    ∧ userRole (sess w') = VNull
    ∧ isLoadingAuth (sess w') = false.
Proof.
  apply (login_profile_missing "rentopia" "ada@example.com" "secret" all_well
           (signed_out_world empty_store) ada); reflexivity.
Defined.

Lemma register_write_failure (projectId : string) (now : Z)
    (email password role firstName lastName phoneNumber : string)
    (agentDetails : option agent_details) (ev : env) (w : world) (u : fbuser)
    (e : error) :
  signUp_result ev = inr u →
  store_fault ev = Some e →
  ∃ w',
    run ev (register projectId now email password role firstName lastName
              phoneNumber agentDetails) w = (w', Rejected e)
    ∧ currentUser w' = Some u
    ∧ Firestore.docs (firestore w') = Firestore.docs (firestore w).
Proof.
  intros Hsign Hstore. unfold register, try_await. simpl. rewrite Hsign. simpl.
  rewrite Hstore. simpl. eexists. split; [reflexivity|]. done.
Qed.

(** C3. Sign-up succeeds and the profile write fails: [register] rejects
    with the write's error and resets the session, but it never calls
    [signOut]: Firebase Auth still has the new user signed in, and no
    profile document exists.  In the event loop, with the store still
    unreachable when the new user's notification is handled, that is also
    the state in which everything comes to rest. *)
Theorem register_write_failure_stays_signed_in :
  let w' := (run store_down ada_registers (signed_out_world empty_store)).1 in
  let m := exec "rentopia" failed_registration (start None ∅ empty_store) in
  ((run store_down ada_registers (signed_out_world empty_store)).2
   = Rejected "unavailable"
   ∧ currentUser w' = Some ada
   ∧ Firestore.docs (firestore w') = ∅
   ∧ sess w' = Session false None VNull false (Some "uid-ada"))
  ∧ ((currentUser ∘ mworld) <$> m = Some (Some ada)
     ∧ (Firestore.docs ∘ firestore ∘ mworld) <$> m = Some ∅
     ∧ (length ∘ awaiting) <$> m = Some 0%nat
     ∧ (notifications ∘ mworld) <$> m = Some []
     ∧ rejections <$> m
       = Some [(Called "register", "unavailable");
               (Notified (Some ada), "unavailable")]).
Proof. repeat split; vm_compute; reflexivity. Qed.

Lemma authStateChanged_read_failure (projectId : string) (ev : env) (w : world)
    (cu : fbuser) (e : error) :
  secure_fault ev = None →
  SecureStore w !! "userRole" = None →
  store_fault ev = Some e →
  ∃ w',
    run ev (authStateChanged projectId (Some cu)) w = (w', Rejected e)
    ∧ user (sess w') = Some cu
    ∧ userId (sess w') = Some (uid cu)
    ∧ isLoadingAuth (sess w') = isLoadingAuth (sess w)
    ∧ console w' = console w.
Proof.
  intros Hsecure Hstored Hstore.
  unfold authStateChanged, try_await. simpl. rewrite Hsecure, Hstored. simpl.
  rewrite Hstore. simpl. eexists. split; [reflexivity|]. done.
Qed.

(** C2. Process start with a persisted user, an empty role cache and a
    failing profile read: the callback's promise rejects and nobody handles
    it.  The [catch] block of [initializeFirebase] does not run: nothing is
    logged, [user] and [userId] stay set, and [isLoadingAuth] stays true
    with no code left to run. *)
Theorem bootstrap_read_failure_unhandled :
  let m := exec "rentopia"
             (boot_to_profile_read ++ [Settle 0 store_down; Tick])%list
             (start (Some ada) ∅ two_profiles) in
  rejections <$> m = Some [(Notified (Some ada), "unavailable")]
  ∧ in_flight <$> m = Some 0%nat
  ∧ (length ∘ awaiting) <$> m = Some 0%nat
  ∧ (notifications ∘ mworld) <$> m = Some []
  ∧ (console ∘ mworld) <$> m = Some []
  ∧ (sess ∘ mworld) <$> m
    = Some (Session false (Some ada) VNull true (Some "uid-ada")).
Proof. repeat split; vm_compute; reflexivity. Qed.

Lemma profileData_createdAt (now : Z) (email role firstName lastName
    phoneNumber currentUserId : string) (agentDetails : option agent_details) :
  profileData now email role firstName lastName phoneNumber currentUserId
              agentDetails !! "createdAt" = Some (VDate now).
Proof.
  unfold profileData.
  destruct agentDetails as [[t l [c|]]|]; [destruct (String.eqb role "agent")..|];
    vm_compute; reflexivity.
Qed.

Lemma profileData_role (now : Z) (email role firstName lastName
    phoneNumber currentUserId : string) (agentDetails : option agent_details) :
  profileData now email role firstName lastName phoneNumber currentUserId
              agentDetails !! "role" = Some (VStr role).
Proof.
  unfold profileData.
  destruct agentDetails as [[t l [c|]]|]; [destruct (String.eqb role "agent")..|];
    vm_compute; reflexivity.
Qed.

(** C5, refuted as stated: the profile document that [register] stores has
    the client's clock reading as [createdAt], not a timestamp of the store. *)
Lemma register_createdAt_not_server_assigned :
  let w' := (run all_well ada_registers (signed_out_world empty_store)).1 in
  let stored :=
    Firestore.docs (firestore w') !! (profilesPath "rentopia" "uid-ada", "uid-ada") in
  (run all_well ada_registers (signed_out_world empty_store)).2 = Resolved
  ∧ stored ≫= (λ d, d !! "createdAt") = Some (VDate 1700000000000)
  ∧ ¬ ∃ t, stored ≫= (λ d, d !! "createdAt") = Some (VTimestamp t).
Proof.
  repeat split; [vm_compute; reflexivity..|].
  intros [t Ht]. vm_compute in Ht. discriminate.
Qed.

(** C5 (amended). [addDocument] stores [createdAt], and [setDocument] and
    [updateDocument] store [updatedAt], as read from the store's clock,
    whatever the caller put in [data]; the profile document that [register]
    writes carries as [createdAt] the client's [new Date()]. *)
Theorem service_stamps_server_register_stamps_client
    (db : FirestoreService.dbref) (path id : string) (data old : obj)
    (fs : Firestore.t) (projectId : string) (now : Z)
    (email password role firstName lastName phoneNumber : string)
    (agentDetails : option agent_details) (ev : env) (w : world) (u : fbuser) :
  Firestore.valid_collection_path path = true →
  Firestore.docs fs !! (path, id) = Some old →
  signUp_result ev = inr u →
  store_fault ev = None →
  (∃ fs' id' d,
     FirestoreService.addDocument (Some db) None path data fs = (fs', inr id')
     ∧ Firestore.docs fs' !! (path, id') = Some d
     ∧ d !! "createdAt" = Some (VTimestamp (Firestore.clock fs)))
  ∧ (∃ fs' d,
       FirestoreService.setDocument (Some db) None path id data fs = (fs', inr tt)
       ∧ Firestore.docs fs' !! (path, id) = Some d
       ∧ d !! "updatedAt" = Some (VTimestamp (Firestore.clock fs)))
  ∧ (∃ fs' d,
       FirestoreService.updateDocument (Some db) None path id data fs = (fs', inr tt)
       ∧ Firestore.docs fs' !! (path, id) = Some d
       ∧ d !! "updatedAt" = Some (VTimestamp (Firestore.clock fs)))
  ∧ (∃ d,
       Firestore.docs
         (firestore (run ev (register projectId now email password role firstName
                               lastName phoneNumber agentDetails) w).1)
         !! (profilesPath projectId (uid u), uid u) = Some d
       ∧ d !! "createdAt" = Some (VDate now)).
Proof.
  intros Hvalid Hold Hsign Hstore.
  split; [by apply addDocument_createdAt|].
  split; [apply setDocument_updatedAt|].
  split; [by eapply updateDocument_updatedAt|].
  unfold register, try_await. simpl. rewrite Hsign. simpl. rewrite Hstore. simpl.
  eexists. split.
  - destruct (secure_fault ev); simpl; apply lookup_insert_eq.
  - unfold Firestore.written. rewrite lookup_fmap, profileData_createdAt. done.
Qed.

Lemma service_stamps_server_register_stamps_client_witness :
  (∃ fs' id' d,
     FirestoreService.addDocument (Some (FirestoreService.Db (VStr "rentopia")))
       None (profilesPath "rentopia" "uid-ada") {[ "createdAt" := VDate 5 ]}
       two_profiles = (fs', inr id')
     ∧ Firestore.docs fs' !! (profilesPath "rentopia" "uid-ada", id') = Some d
     ∧ d !! "createdAt" = Some (VTimestamp (Firestore.clock two_profiles)))
  ∧ (∃ fs' d,
       FirestoreService.setDocument (Some (FirestoreService.Db (VStr "rentopia")))
         None (profilesPath "rentopia" "uid-ada") "uid-ada"
         {[ "createdAt" := VDate 5 ]} two_profiles = (fs', inr tt)
       ∧ Firestore.docs fs' !! (profilesPath "rentopia" "uid-ada", "uid-ada") = Some d
       ∧ d !! "updatedAt" = Some (VTimestamp (Firestore.clock two_profiles)))
  ∧ (∃ fs' d,
       FirestoreService.updateDocument (Some (FirestoreService.Db (VStr "rentopia")))
         None (profilesPath "rentopia" "uid-ada") "uid-ada"
         {[ "createdAt" := VDate 5 ]} two_profiles = (fs', inr tt)
       ∧ Firestore.docs fs' !! (profilesPath "rentopia" "uid-ada", "uid-ada") = Some d
       ∧ d !! "updatedAt" = Some (VTimestamp (Firestore.clock two_profiles)))
  ∧ (∃ d,
       Firestore.docs
         (firestore (run all_well ada_registers (signed_out_world empty_store)).1)
         !! (profilesPath "rentopia" (uid ada), uid ada) = Some d
       ∧ d !! "createdAt" = Some (VDate 1700000000000)).
Proof.
  apply (service_stamps_server_register_stamps_client
           (FirestoreService.Db (VStr "rentopia"))
           (profilesPath "rentopia" "uid-ada") "uid-ada"
           {[ "createdAt" := VDate 5 ]}
           {[ "role" := VStr "renter" ]} two_profiles "rentopia" 1700000000000
           "ada@example.com" "secret" "renter" "Ada" "Obi" "08012345678" None
           all_well (signed_out_world empty_store) ada).
  - vm_compute. reflexivity.
  - vm_compute. reflexivity.
  - reflexivity.
  - reflexivity.
Defined.

(** C6, refuted as stated: ada's pass is still waiting for her profile when
    bob logs in and his notification is delivered.  Two passes are then in
    flight, and when ada's read completes her pass goes on to write the
    session although the latest notification is bob's. *)
Lemma stale_resolution_writes :
  ¬ stale_write_protection "rentopia" (start (Some ada) ∅ two_profiles).
Proof.
  intros Hprot.
  assert (Hstale : stale_write <$> exec "rentopia" race_schedule
                     (start (Some ada) ∅ two_profiles) = Some true)
    by (vm_compute; reflexivity).
  destruct (exec "rentopia" race_schedule (start (Some ada) ∅ two_profiles))
    as [m|] eqn:Hm; [|discriminate].
  destruct (Hprot _ _ Hm) as [_ Hno]. simpl in Hstale. congruence.
Qed.

(** The same run, continued until ada's pass has finished: bob is the user
    signed in, and the session and the role cache hold ada's role. *)
Example stale_resolution_outcome :
  let m := exec "rentopia" (race_schedule ++ race_tail)%list
                (start (Some ada) ∅ two_profiles) in
  (currentUser ∘ mworld) <$> m = Some (Some bob)
  ∧ latest <$> m = Some (Some (Some bob))
  ∧ (userRole ∘ sess ∘ mworld) <$> m = Some (VStr "renter")
  ∧ (isAuthenticated ∘ sess ∘ mworld) <$> m = Some true
  ∧ (λ m, SecureStore (mworld m) !! "userRole") <$> m = Some (Some "renter").
Proof. repeat split; vm_compute; reflexivity. Qed.

(** A second run: after ada has logged out and the sign-out notification
    has been handled, the read of her earlier pass completes.  Nobody is
    signed in, yet the session ends authenticated with her role, with no
    [user], and the role cache is filled again. *)
Example stale_resolution_after_logout :
  let m := exec "rentopia" logout_race (start None ∅ two_profiles) in
  (currentUser ∘ mworld) <$> m = Some None
  ∧ latest <$> m = Some (Some None)
  ∧ (sess ∘ mworld) <$> m
    = Some (Session true None (VStr "renter") false None)
  ∧ (λ m, SecureStore (mworld m) !! "userRole") <$> m = Some (Some "renter")
  ∧ (length ∘ awaiting) <$> m = Some 0%nat.
Proof. repeat split; vm_compute; reflexivity. Qed.

(** C6 (amended). Passes are neither serialised nor tagged.  Whatever the
    last notification delivered was, a pass whose profile read is pending
    goes on, when the read returns an existing profile, to write that
    profile's role to the session, mark it authenticated and store the role
    in SecureStore. *)
Theorem resolution_result_always_applied (projectId : string) (m : machine)
    (i : nat) (cu : fbuser) (path id : string) (ev : env) (userData : obj)
    (role : string) :
  running m = None →
  awaiting m !! i
  = Some (Suspended (Notified (Some cu)) (getDoc path id)
            (λ r, match r with
                  | inl e => uncaught e
                  | inr userDocSnap => resolve_fetched userDocSnap
                  end)) →
  store_fault ev = None →
  secure_fault ev = None →
  Firestore.docs (firestore (mworld m)) !! (path, id) = Some userData →
  userData !! "role" = Some (VStr role) →
  ∃ m',
    exec projectId
      [Settle i ev; Tick; Tick; Tick; Settle (length (awaiting m) - 1) ev; Tick; Tick]
      m = Some m'
    ∧ userRole (sess (mworld m')) = VStr role
    ∧ isAuthenticated (sess (mworld m')) = true
    ∧ SecureStore (mworld m') !! "userRole" = Some role
    ∧ latest m' = latest m.
Proof.
  intros Hrun Hi Hstore Hsecure Hdoc Hrole.
  assert (Hlen : length (delete i (awaiting m)) = (length (awaiting m) - 1)%nat).
  { apply length_delete. by eexists. }
  unfold exec. unfold step at 1. rewrite Hrun, Hi.
  unfold perform, Firestore.getDoc. rewrite Hstore. simpl. rewrite Hdoc.
  unfold resolve_fetched, prop, try_await. rewrite Hrole. simpl.
  rewrite <- Hlen. unfold step at 1. cbn [running awaiting mworld].
  rewrite (list_lookup_middle _ [] _ _ eq_refl).
  unfold perform. rewrite Hsecure. simpl.
  eexists. split; [reflexivity|]. simpl.
  repeat split. apply lookup_insert_eq.
Qed.

Lemma resolution_result_always_applied_witness :
  latest race_pending = Some (Some bob)
  ∧ ∃ m',
      exec "rentopia"
        [Settle 0 all_well; Tick; Tick; Tick;
         Settle (length (awaiting race_pending) - 1) all_well; Tick; Tick]
        race_pending = Some m'
      ∧ userRole (sess (mworld m')) = VStr "renter"
      ∧ isAuthenticated (sess (mworld m')) = true
      ∧ SecureStore (mworld m') !! "userRole" = Some "renter"
      ∧ latest m' = latest race_pending.
Proof.
  split; [vm_compute; reflexivity|].
  apply (resolution_result_always_applied "rentopia" race_pending 0 ada
           (profilesPath "rentopia" "uid-ada") "uid-ada" all_well
           {[ "role" := VStr "renter" ]} "renter").
  - vm_compute. reflexivity.
  - vm_compute. reflexivity.
  - reflexivity.
  - reflexivity.
  - vm_compute. reflexivity.
  - vm_compute. reflexivity.
Defined.

(** *** The session invariant *)

Lemma safe_resolve_fetched (projectId : string) (userDocSnap : option obj) :
  (∀ d, userDocSnap = Some d → profile_ok d) →
  safe projectId false false (resolve_fetched userDocSnap).
Proof.
  intros Hok. destruct userDocSnap as [userData|]; simpl.
  - destruct (Hok userData eq_refl) as (role & Hrole & Hnull & Hundef).
    unfold prop. rewrite Hrole.
    destruct role; try done; simpl;
      repeat split; intros [e|[]] _; simpl; done.
  - repeat split. intros [e|[]] _; simpl; [done|].
    repeat split. intros [e|[]] _; simpl; done.
Qed.

Lemma safe_authStateChanged (projectId : string) (u : option fbuser) :
  safe projectId false false (authStateChanged projectId u).
Proof.
  assert (Hfetch : ∀ cu : fbuser,
    safe projectId false false
      (try_await (getDoc (profilesPath projectId (uid cu)) (uid cu)) uncaught
                 (λ userDocSnap, resolve_fetched userDocSnap))).
  { intros cu. simpl. split; [done|].
    intros [e|snap] Hok; simpl; [done|].
    apply safe_resolve_fetched. intros d ->. by apply Hok. }
  destruct u as [cu|]; simpl.
  - split; [done|]. intros [e|[storedRole|]] _; [done| |apply Hfetch].
    simpl. destruct (String.eqb storedRole ""); simpl; [apply Hfetch|done].
  - repeat split. intros [e|[]] _; simpl; done.
Qed.

Lemma safe_initializeFirebase (projectId : string) (sdk_throws : option error)
    (initialAuthToken : option string) :
  safe projectId false false (initializeFirebase sdk_throws initialAuthToken).
Proof.
  assert (Hcatch : ∀ e, safe projectId false false (initializeFirebase_catch e)).
  { intros e. simpl. repeat split. intros [e'|[]] _; simpl; done. }
  destruct sdk_throws as [e|]; [apply Hcatch|].
  unfold initializeFirebase.
  destruct (truthy (of_nullable initialAuthToken)); simpl; [|done].
  split; [done|]. intros [e|cu] _; [apply Hcatch|done].
Qed.

Lemma safe_login (projectId email password : string) :
  safe projectId false false (login projectId email password).
Proof.
  assert (Hcatch : ∀ e, safe projectId false false (login_catch e))
    by (intros e; simpl; done).
  simpl. split; [done|]. intros [e|cu] _; [apply Hcatch|]. simpl.
  split; [done|]. intros [e|[userData|]] Hok; [apply Hcatch| |]; simpl.
  - destruct (Hok userData eq_refl) as (role & Hrole & Hnull & Hundef).
    unfold prop. rewrite Hrole.
    destruct role; try done;
      (simpl; repeat split; intros [e|[]] _; [apply Hcatch|done]).
  - split; [done|]. intros [e|[]] _; apply Hcatch.
Qed.

Lemma safe_register (projectId : string) (now : Z)
    (email password role firstName lastName phoneNumber : string)
    (agentDetails : option agent_details) :
  safe projectId false false
    (register projectId now email password role firstName lastName phoneNumber
              agentDetails).
Proof.
  assert (Hcatch : ∀ e, safe projectId false false (register_catch e))
    by (intros e; simpl; done).
  simpl. split; [done|]. intros [e|cu] _; [apply Hcatch|]. simpl.
  split; [eexists; split; [apply profileData_role|by split]|].
  intros [e|[]] _; [apply Hcatch|]. simpl.
  repeat split. intros [e|[]] _; [apply Hcatch|done].
Qed.

Lemma safe_logout (projectId : string) : safe projectId false false logout.
Proof. simpl. split; [done|]. intros [e|[]] _; simpl; done. Qed.

Lemma safe_command (projectId : string) (c : command) :
  safe projectId false false (command_prog projectId c).
Proof.
  destruct c as [email password|now email password role f l ph ad|].
  - exact (safe_login projectId email password).
  - exact (safe_register projectId now email password role f l ph ad).
  - exact (safe_logout projectId).
Qed.

Lemma profiles_well_formed_log (projectId : string) (c : Firestore.sdk_call)
    (fs : Firestore.t) :
  profiles_well_formed projectId fs →
  profiles_well_formed projectId (Firestore.log c fs).
Proof. intros H u d. simpl. apply H. Qed.

(** What a settled call changes: never the session; the store only by a
    schema-conforming profile; and a profile read answers with a
    schema-conforming document. *)
Lemma perform_ok (projectId : string) (ev : env) {A} (c : call A) (w : world) :
  call_ok projectId c →
  profiles_well_formed projectId (firestore w) →
  sess (perform ev c w).1 = sess w
  ∧ profiles_well_formed projectId (firestore (perform ev c w).1)
  ∧ answer_ok c (perform ev c w).2.
Proof.
  intros Hcall Hwf.
  destruct c as [em pw|em pw|tok| |key|key v|key|path id|path id data]; simpl.
  - destruct (signIn_result ev); simpl; done.
  - destruct (signUp_result ev); simpl; done.
  - destruct (token_result ev); simpl; done.
  - destruct (signOut_fault ev); simpl; done.
  - destruct (secure_fault ev); simpl; done.
  - destruct (secure_fault ev); [simpl; done|]. destruct v; simpl; done.
  - destruct (secure_fault ev); simpl; done.
  - simpl in Hcall. subst path. unfold Firestore.getDoc.
    destruct (store_fault ev); simpl.
    + repeat split; [by apply profiles_well_formed_log | done].
    + repeat split; [by apply profiles_well_formed_log |].
      intros d [= Hd]. by apply (Hwf id).
  - simpl in Hcall. unfold Firestore.setDoc.
    destruct (store_fault ev); simpl.
    + repeat split. by apply profiles_well_formed_log.
    + repeat split. intros u d. simpl.
      destruct (decide ((path, id) = (profilesPath projectId u, u))) as [->|Hne].
      * rewrite lookup_insert_eq. intros [= <-].
        destruct Hcall as (role & Hrole & Hnull & Hundef).
        exists (Firestore.resolve (Firestore.clock (firestore w)) role).
        unfold Firestore.written. rewrite lookup_fmap, Hrole.
        split; [done|]. by destruct role.
      * rewrite lookup_insert_ne by done. apply Hwf.
Qed.

Lemma step_ok (projectId : string) (e : event) (m m' : machine) :
  machine_ok projectId m →
  step projectId e m = Some m' →
  machine_ok projectId m'.
Proof.
  intros (Hsess & Hwf & Hawait & Hrun) Hstep. unfold step in Hstep.
  destruct (running m) as [[o p]|] eqn:Hr.
  - destruct e; try discriminate.
    destruct Hrun as (rs & af & Hsafe & Hrs & Haf).
    destruct p as [|err|a k|A c k]; injection Hstep as <-.
    + done.
    + done.
    + unfold machine_ok. simpl.
      destruct a as [b|u|r|b|i|msg err|msg|]; simpl in *;
        try (split_and!; [done..|]; exists rs, af; split_and!; done).
      * destruct b.
        -- destruct Hsafe as [-> Hsafe]. split_and!; [auto|done..|].
           exists true, false. split_and!; [done|auto|done].
        -- split_and!; [done..|]. exists rs, true. split_and!; done.
      * destruct (is_set r) eqn:Hstr.
        -- split_and!; [done..|]. exists true, af. split_and!; done.
        -- destruct Hsafe as [-> Hsafe].
           split_and!; [by rewrite Haf|done..|].
           exists false, true. split_and!; [done|done|auto].
    + unfold machine_ok. simpl. split_and!; [done..| |done].
      apply Forall_app. split; [done|]. apply Forall_singleton. exact Hsafe.
  - destruct e as [|i ev| |sdk_throws token|c]; try discriminate.
    + destruct (awaiting m !! i) as [[o A c k]|] eqn:Hi; [|discriminate].
      pose proof (Forall_lookup_1 _ _ _ _ Hawait Hi) as [Hcall Hk].
      destruct (perform_ok projectId ev c (mworld m) Hcall Hwf)
        as (Hs & Hwf' & Hans).
      destruct (perform ev c (mworld m)) as [w r]. simpl in *.
      injection Hstep as <-. unfold machine_ok. simpl.
      split_and!.
      * by rewrite Hs.
      * done.
      * by apply Forall_delete.
      * exists false, false. split_and!; [by apply Hk|done..].
    + unfold take_notification in Hstep.
      destruct (notifications (mworld m)) as [|u rest]; [discriminate|].
      injection Hstep as <-. unfold machine_ok. simpl.
      split_and!; [done..|].
      exists false, false. split_and!; [apply safe_authStateChanged|done..].
    + destruct (mounted m); [discriminate|]. injection Hstep as <-.
      unfold machine_ok. simpl. split_and!; [done..|].
      exists false, false. split_and!; [apply safe_initializeFirebase|done..].
    + injection Hstep as <-. unfold machine_ok. simpl. split_and!; [done..|].
      exists false, false. split_and!; [apply safe_command|done..].
Qed.

Lemma exec_ok (projectId : string) (es : list event) (m m' : machine) :
  machine_ok projectId m →
  exec projectId es m = Some m' →
  machine_ok projectId m'.
Proof.
  revert m. induction es as [|e es IH]; intros m Hok Hexec; simpl in Hexec.
  - by injection Hexec as <-.
  - destruct (step projectId e m) as [m1|] eqn:Hstep; [|discriminate].
    eapply IH; [|exact Hexec]. by eapply step_ok.
Qed.

Lemma start_ok (projectId : string) (persisted : option fbuser)
    (store : gmap string string) (fs : Firestore.t) :
  profiles_well_formed projectId fs →
  machine_ok projectId (start persisted store fs).
Proof. intros Hwf. unfold machine_ok. simpl. split_and!; done. Qed.

(** C1. From process start, over a store whose profile documents carry a
    role, every state the event loop passes through (between any two
    statements of the callback, of [initializeFirebase], of [login],
    [register] and [logout], under every interleaving of their awaits and
    every failure of the collaborators) has a non-null [userRole] whenever
    [isAuthenticated] is true. *)
Theorem authenticated_has_role (projectId : string) (persisted : option fbuser)
    (store : gmap string string) (fs : Firestore.t) (es : list event)
    (m : machine) :
  profiles_well_formed projectId fs →
  exec projectId es (start persisted store fs) = Some m →
  role_resolved (sess (mworld m)).
Proof.
  intros Hwf Hexec.
  destruct (exec_ok projectId es _ m (start_ok projectId persisted store fs Hwf) Hexec)
    as (Hsess & _).
  intros Hauth. specialize (Hsess Hauth).
  destruct (userRole (sess (mworld m))); try discriminate; by split.
Qed.

Lemma two_profiles_well_formed : profiles_well_formed "rentopia" two_profiles.
Proof.
  intros u d Hd. unfold two_profiles in Hd. simpl in Hd.
  apply lookup_insert_Some in Hd as [[_ <-]|[_ Hd]].
  { by exists (VStr "renter"). }
  apply lookup_singleton_Some in Hd as [_ <-]. by exists (VStr "agent").
Qed.

Lemma exec_reaches_default (projectId : string) (es : list event) (m0 : machine) :
  match exec projectId es m0 with Some _ => true | None => false end = true →
  exec projectId es m0 = Some (default m0 (exec projectId es m0)).
Proof. by destruct (exec projectId es m0). Qed.

Lemma authenticated_has_role_witness :
  isAuthenticated (sess (mworld race_outcome)) = true
  ∧ non_null (userRole (sess (mworld race_outcome))).
Proof.
  split; [vm_compute; reflexivity|].
  apply (authenticated_has_role "rentopia" (Some ada) ∅ two_profiles
           (race_schedule ++ race_tail)%list race_outcome).
  - exact two_profiles_well_formed.
  - apply exec_reaches_default. vm_compute. reflexivity.
  - vm_compute. reflexivity.
Defined.

(** C1, refuted as stated: over a store in which the profile document of
    the persisted user has no [role], the callback sets [userRole] to
    [undefined] and [isAuthenticated] to true; caching the role then fails
    and everything comes to rest in that state.  So not every state
    reached from process start has a non-null role when authenticated. *)
Lemma roleless_profile_authenticates :
  let m := exec "rentopia" roleless_boot (start (Some ada) ∅ roleless_profile) in
  ((isAuthenticated ∘ sess ∘ mworld) <$> m = Some true
   ∧ (userRole ∘ sess ∘ mworld) <$> m = Some VUndefined
   ∧ in_flight <$> m = Some 0%nat
   ∧ (length ∘ awaiting) <$> m = Some 0%nat)
  ∧ ¬ (∀ persisted store fs es m',
         exec "rentopia" es (start persisted store fs) = Some m' →
         role_resolved (sess (mworld m'))).
Proof.
  split; [repeat split; vm_compute; reflexivity|].
  intros Hall.
  pose (m0 := default (start (Some ada) ∅ roleless_profile)
                (exec "rentopia" roleless_boot
                   (start (Some ada) ∅ roleless_profile))).
  assert (Hreach : exec "rentopia" roleless_boot
                     (start (Some ada) ∅ roleless_profile) = Some m0).
  { apply exec_reaches_default. vm_compute. reflexivity. }
  assert (Hauth : isAuthenticated (sess (mworld m0)) = true)
    by (vm_compute; reflexivity).
  destruct (Hall _ _ _ _ _ Hreach Hauth) as [_ Hrole].
  apply Hrole. vm_compute. reflexivity.
Qed.

End SessionFacts.

(** * Further properties of the Firestore service *)

Section ServiceReads.
Import Firestore FirestoreService.

Lemma with_id_lookup (id : string) (data : obj) (f : string) :
  with_id id data !! f
  = if decide (f = "id") then Some (default (VStr id) (data !! "id"))
    else data !! f.
Proof.
  unfold with_id. destruct (decide (f = "id")) as [->|Hne].
  - destruct (data !! "id") as [v|] eqn:Hid; simpl.
    + by apply lookup_union_Some_l.
    + rewrite lookup_union_r by done. by rewrite lookup_singleton_eq.
  - destruct (data !! f) as [v|] eqn:Hf.
    + by apply lookup_union_Some_l.
    + rewrite lookup_union_r by done. by rewrite lookup_singleton_ne.
Qed.

(** X1. For a reference that [doc] accepts, [getDocument] changes no
    document.  It returns [null] for a missing document; for an existing one
    it returns the stored fields together with an [id] field, which is the
    document id unless the stored data has a field [id] of its own, and then
    that field wins. *)
Theorem getDocument_reads (db : dbref) (path id : string) (fs : t) :
  valid_document_path path id = true →
  (getDocument (Some db) None path id fs).2
  = inr (with_id id <$> docs fs !! (path, id))
  ∧ docs (getDocument (Some db) None path id fs).1 = docs fs
  ∧ ∀ data f,
      with_id id data !! f
      = if decide (f = "id") then Some (default (VStr id) (data !! "id"))
        else data !! f.
Proof.
  intros _. unfold getDocument, getDoc. simpl.
  destruct (docs fs !! (path, id)); simpl; split_and!; try done;
    intros; apply with_id_lookup.
Qed.

Lemma getDocument_reads_witness :
  (getDocument (Some (Db (VStr "rentopia"))) None "payments" "p1"
     three_payments).2
  = inr (with_id "p1" <$> docs three_payments !! ("payments", "p1"))
  ∧ docs (getDocument (Some (Db (VStr "rentopia"))) None "payments" "p1"
            three_payments).1 = docs three_payments
  ∧ ∀ data f,
      with_id "p1" data !! f
      = if decide (f = "id") then Some (default (VStr "p1") (data !! "id"))
        else data !! f.
Proof.
  apply (getDocument_reads (Db (VStr "rentopia")) "payments" "p1"
           three_payments).
  reflexivity.
Defined.

(** X2. For a reference that [doc] accepts, [setDocument] on a missing
    document creates it, holding exactly the supplied fields and
    [updatedAt]; [getDocument] then returns that document. *)
Theorem setDocument_creates (db : dbref) (path id : string) (data : obj) (fs : t) :
  valid_document_path path id = true →
  docs fs !! (path, id) = None →
  let stored := resolve (clock fs) <$> <["updatedAt" := VServerTimestamp]> data in
  let fs' := (setDocument (Some db) None path id data fs).1 in
  (setDocument (Some db) None path id data fs).2 = inr tt
  ∧ docs fs' !! (path, id) = Some stored
  ∧ (getDocument (Some db) None path id fs').2 = inr (Some (with_id id stored))
  ∧ ∀ k, k ≠ (path, id) → docs fs' !! k = docs fs !! k.
Proof.
  intros _ Hnone. unfold setDocument, getDocument, setDoc, getDoc, put, written,
    spread_set. simpl. rewrite Hnone. simpl.
  rewrite (right_id_L ∅ (∪)). rewrite lookup_insert_eq. simpl.
  split_and!; try done. intros k Hk. by rewrite lookup_insert_ne.
Qed.

Lemma setDocument_creates_witness :
  let stored : obj :=
    resolve (clock empty_store)
      <$> <["updatedAt" := VServerTimestamp]> {[ "title" := VStr "Flat" ]} in
  let fs' := (setDocument (Some (Db (VStr "rentopia"))) None "listings" "l1"
                {[ "title" := VStr "Flat" ]} empty_store).1 in
  (setDocument (Some (Db (VStr "rentopia"))) None "listings" "l1"
     {[ "title" := VStr "Flat" ]} empty_store).2 = inr tt
  ∧ docs fs' !! ("listings", "l1") = Some stored
  ∧ (getDocument (Some (Db (VStr "rentopia"))) None "listings" "l1" fs').2
    = inr (Some (with_id "l1" stored))
  ∧ ∀ k, k ≠ ("listings", "l1") → docs fs' !! k = docs empty_store !! k.
Proof.
  apply (setDocument_creates (Db (VStr "rentopia")) "listings" "l1"
           {[ "title" := VStr "Flat" ]} empty_store); reflexivity.
Defined.

(** X4. For a reference that [doc] accepts, [deleteDocument] succeeds
    whether or not the document exists; afterwards [getDocument] returns
    [null] for it, every other document is as before, and deleting a
    missing document changes nothing. *)
Theorem deleteDocument_removes (db : dbref) (path id : string) (fs : t) :
  valid_document_path path id = true →
  let fs' := (deleteDocument (Some db) None path id fs).1 in
  (deleteDocument (Some db) None path id fs).2 = inr tt
  ∧ (getDocument (Some db) None path id fs').2 = inr None
  ∧ (∀ k, k ≠ (path, id) → docs fs' !! k = docs fs !! k)
  ∧ (docs fs !! (path, id) = None → docs fs' = docs fs).
Proof.
  intros _. unfold deleteDocument, getDocument, deleteDoc, getDoc. simpl.
  rewrite lookup_delete_eq. split_and!; try done.
  - intros k Hk. by rewrite lookup_delete_ne.
  - intros Hnone. by apply delete_id.
Qed.

Lemma deleteDocument_removes_witness :
  let fs' := (deleteDocument (Some (Db (VStr "rentopia"))) None "payments" "p2"
                three_payments).1 in
  (deleteDocument (Some (Db (VStr "rentopia"))) None "payments" "p2"
     three_payments).2 = inr tt
  ∧ (getDocument (Some (Db (VStr "rentopia"))) None "payments" "p2" fs').2
    = inr None
  ∧ (∀ k, k ≠ ("payments", "p2") → docs fs' !! k = docs three_payments !! k)
  ∧ (docs three_payments !! ("payments", "p2") = None
     → docs fs' = docs three_payments).
Proof.
  apply (deleteDocument_removes (Db (VStr "rentopia")) "payments" "p2"
           three_payments).
  reflexivity.
Defined.

Lemma run_query_unfiltered (path : string) (fs : t) :
  run_query (Query path []) fs = collection_docs path fs.
Proof.
  unfold run_query. simpl.
  induction (collection_docs path fs) as [|d l IH]; [done|].
  rewrite filter_cons_True by constructor. by rewrite IH.
Qed.

Lemma emission_listenToCollection (sdk : validation) (db : dbref)
    (path : string) (conditions : list condition) (fs now : t) :
  valid_collection_path path = true →
  accepts sdk (Query path []) conditions = true →
  emission (listenToCollection sdk (Some db) path conditions fs).2 now
  = Some (map (λ d, with_id d.1 d.2)
              (filter (λ d, Forall (λ c, matches d.2 c = true) conditions)
                      (collection_docs path now))).
Proof.
  intros Hvalid Hacc.
  rewrite (listenToCollection_query sdk db path conditions fs Hvalid Hacc).
  simpl. unfold collection_next, run_query. simpl. by rewrite push_all_map.
Qed.

(** X6. [getAllDocuments] changes no document and returns every document of
    the collection, each with its id, and nothing else; it is the array a
    subscription to the same collection without conditions delivers for the
    same store. *)
Theorem getAllDocuments_all (sdk : validation) (db : dbref) (path : string)
    (fs : t) :
  valid_collection_path path = true →
  ∃ documents,
    (getAllDocuments (Some db) None path fs).2 = inr documents
    ∧ docs (getAllDocuments (Some db) None path fs).1 = docs fs
    ∧ (∀ o, o ∈ documents
            ↔ ∃ id data, docs fs !! (path, id) = Some data ∧ o = with_id id data)
    ∧ emission (listenToCollection sdk (Some db) path [] fs).2 fs
      = Some documents.
Proof.
  intros Hvalid.
  pose proof (emission_listenToCollection sdk db path [] fs fs Hvalid eq_refl)
    as Hemit.
  unfold getAllDocuments, collection. rewrite Hvalid.
  unfold getDocs. simpl. eexists. split_and!; [reflexivity|done| |].
  - intros o. rewrite push_all_map, list_elem_of_fmap.
    unfold run_query. simpl. split.
    + intros [[id data] [-> Hin]]. apply list_elem_of_filter in Hin as [_ Hin].
      apply elem_of_collection_docs in Hin. by exists id, data.
    + intros (id & data & Hdoc & ->). exists (id, data). split; [done|].
      apply list_elem_of_filter. split; [constructor|].
      by apply elem_of_collection_docs.
  - etrans; [exact Hemit|]. by rewrite push_all_map.
Qed.

Lemma getAllDocuments_all_witness :
  ∃ documents,
    (getAllDocuments (Some (Db (VStr "rentopia"))) None "payments" three_payments).2
    = inr documents
    ∧ docs (getAllDocuments (Some (Db (VStr "rentopia"))) None "payments"
              three_payments).1 = docs three_payments
    ∧ (∀ o, o ∈ documents
            ↔ ∃ id data, docs three_payments !! ("payments", id) = Some data
                         ∧ o = with_id id data)
    ∧ emission (listenToCollection two_checks (Some (Db (VStr "rentopia")))
                  "payments" [] three_payments).2 three_payments
      = Some documents.
Proof.
  apply (getAllDocuments_all two_checks (Db (VStr "rentopia")) "payments"
           three_payments).
  reflexivity.
Defined.

(** X7. When the store rejects the call with an error, each CRUD helper
    rejects with that same error and no document is changed. *)
Theorem crud_failure_propagates (db : dbref) (e : error) (path id : string)
    (data : obj) (fs : t) :
  valid_collection_path path = true →
  ((addDocument (Some db) (Some e) path data fs).2 = inl e
   ∧ docs (addDocument (Some db) (Some e) path data fs).1 = docs fs)
  ∧ ((setDocument (Some db) (Some e) path id data fs).2 = inl e
     ∧ docs (setDocument (Some db) (Some e) path id data fs).1 = docs fs)
  ∧ ((updateDocument (Some db) (Some e) path id data fs).2 = inl e
     ∧ docs (updateDocument (Some db) (Some e) path id data fs).1 = docs fs)
  ∧ ((getDocument (Some db) (Some e) path id fs).2 = inl e
     ∧ docs (getDocument (Some db) (Some e) path id fs).1 = docs fs)
  ∧ ((deleteDocument (Some db) (Some e) path id fs).2 = inl e
     ∧ docs (deleteDocument (Some db) (Some e) path id fs).1 = docs fs)
  ∧ ((getAllDocuments (Some db) (Some e) path fs).2 = inl e
     ∧ docs (getAllDocuments (Some db) (Some e) path fs).1 = docs fs).
Proof.
  intros Hvalid.
  unfold addDocument, getAllDocuments, collection. rewrite Hvalid.
  split_and!; reflexivity.
Qed.

Lemma crud_failure_propagates_witness :
  ((addDocument (Some (Db (VStr "rentopia"))) (Some "unavailable") "payments"
      {[ "agentId" := VStr "A1" ]} three_payments).2 = inl "unavailable"
   ∧ docs (addDocument (Some (Db (VStr "rentopia"))) (Some "unavailable") "payments"
             {[ "agentId" := VStr "A1" ]} three_payments).1 = docs three_payments)
  ∧ ((setDocument (Some (Db (VStr "rentopia"))) (Some "unavailable") "payments" "p1"
        {[ "agentId" := VStr "A1" ]} three_payments).2 = inl "unavailable"
     ∧ docs (setDocument (Some (Db (VStr "rentopia"))) (Some "unavailable") "payments"
               "p1" {[ "agentId" := VStr "A1" ]} three_payments).1
       = docs three_payments)
  ∧ ((updateDocument (Some (Db (VStr "rentopia"))) (Some "unavailable") "payments" "p1"
        {[ "agentId" := VStr "A1" ]} three_payments).2 = inl "unavailable"
     ∧ docs (updateDocument (Some (Db (VStr "rentopia"))) (Some "unavailable")
               "payments" "p1" {[ "agentId" := VStr "A1" ]} three_payments).1
       = docs three_payments)
  ∧ ((getDocument (Some (Db (VStr "rentopia"))) (Some "unavailable") "payments" "p1"
        three_payments).2 = inl "unavailable"
     ∧ docs (getDocument (Some (Db (VStr "rentopia"))) (Some "unavailable") "payments"
               "p1" three_payments).1 = docs three_payments)
  ∧ ((deleteDocument (Some (Db (VStr "rentopia"))) (Some "unavailable") "payments" "p1"
        three_payments).2 = inl "unavailable"
     ∧ docs (deleteDocument (Some (Db (VStr "rentopia"))) (Some "unavailable")
               "payments" "p1" three_payments).1 = docs three_payments)
  ∧ ((getAllDocuments (Some (Db (VStr "rentopia"))) (Some "unavailable") "payments"
        three_payments).2 = inl "unavailable"
     ∧ docs (getAllDocuments (Some (Db (VStr "rentopia"))) (Some "unavailable")
               "payments" three_payments).1 = docs three_payments).
Proof.
  apply (crud_failure_propagates (Db (VStr "rentopia")) "unavailable" "payments"
           "p1" {[ "agentId" := VStr "A1" ]} three_payments).
  reflexivity.
Defined.

(** X8. For a reference that [doc] accepts, [listenToDocument] registers
    a listener, and what it delivers for a state of the store is what
    [getDocument] returns on that state: the document with its id, or
    [null] when it does not exist. *)
Theorem listenToDocument_delivers_getDocument (db : dbref) (path id : string)
    (fs now : t) :
  valid_document_path path id = true →
  (listenToDocument (Some db) path id fs).2 = DocumentListener path id
  ∧ ∃ r,
      document_emission (listenToDocument (Some db) path id fs).2 now = Some r
      ∧ (getDocument (Some db) None path id now).2 = inr r.
Proof.
  intros Hvalid.
  unfold listenToDocument, doc, getDocument, getDoc, document_emission,
    document_next.
  rewrite Hvalid. simpl. split; [done|].
  destruct (docs now !! (path, id)); eexists; split; reflexivity.
Qed.

Lemma listenToDocument_delivers_getDocument_witness :
  (listenToDocument (Some (Db (VStr "rentopia"))) "payments" "p1"
     empty_store).2 = DocumentListener "payments" "p1"
  ∧ ∃ r,
      document_emission
        (listenToDocument (Some (Db (VStr "rentopia"))) "payments" "p1"
           empty_store).2 three_payments = Some r
      ∧ (getDocument (Some (Db (VStr "rentopia"))) None "payments" "p1"
           three_payments).2 = inr r.
Proof.
  apply (listenToDocument_delivers_getDocument (Db (VStr "rentopia"))
           "payments" "p1" empty_store three_payments).
  reflexivity.
Defined.



End ServiceReads.

(** * Further properties of the session controller *)

Section SessionRuns.

(** Evaluation of [run] and [step] that leaves map operations and paths
    folded. *)
Ltac evaluate :=
  cbn -[lookup insert delete union fmap profilesPath String.append].
Ltac evaluate_in H :=
  cbn -[lookup insert delete union fmap profilesPath String.append] in H.

Lemma run_login_signed_in (projectId email password : string)
    (up tk : error + fbuser) (out secure : option error) (u : fbuser) (w : world) :
  run (Env (inr u) up tk out secure None) (login projectId email password) w
  = run (Env (inr u) up tk out secure None)
        (login_fetched
           (Firestore.docs (firestore w) !! (profilesPath projectId (uid u), uid u)))
        (with_firestore
           (Firestore.log
              (Firestore.CGetDoc (profilesPath projectId (uid u)) (uid u))
              (firestore w))
           (apply_effect (setUserId (Some (uid u)))
              (apply_effect (setUser (Some u))
                 (set_currentUser (Some u)
                    (apply_effect (setIsLoadingAuth true) w))))).
Proof. reflexivity. Qed.

(** X10. However the collaborators answer, [login] ends with
    [isLoadingAuth] false.  If it rejects, the session is unauthenticated
    with [user] and [userRole] null.  If it resolves, somebody is signed in
    at Firebase Auth, the session is authenticated for that user, and
    [userRole] is a string that is also the role stored in SecureStore. *)
Theorem login_settles (projectId email password : string) (ev : env) (w : world) :
  ∃ w' out,
    run ev (login projectId email password) w = (w', out)
    ∧ isLoadingAuth (sess w') = false
    ∧ match out with
      | Rejected _ =>
          isAuthenticated (sess w') = false
          ∧ user (sess w') = None
          ∧ userRole (sess w') = VNull
      | Resolved =>
          isAuthenticated (sess w') = true
          ∧ (∃ u, currentUser w' = Some u ∧ user (sess w') = Some u
                  ∧ userId (sess w') = Some (uid u))
          ∧ ∃ role, userRole (sess w') = VStr role
                    ∧ SecureStore w' !! "userRole" = Some role
      end.
Proof.
  destruct ev as [[e|u] up tk out secure [e'|]];
    try (do 2 eexists; split; [reflexivity|]; split_and!; reflexivity).
  rewrite run_login_signed_in.
  destruct (Firestore.docs (firestore w) !! (profilesPath projectId (uid u), uid u))
    as [userData|].
  - unfold login_fetched.
    destruct secure as [e|];
      [do 2 eexists; split; [reflexivity|]; split_and!; reflexivity|].
    destruct (prop userData "role") as [| | | |role| | |];
      try (do 2 eexists; split; [reflexivity|]; split_and!; reflexivity).
    do 2 eexists. split; [reflexivity|].
    split_and!; try reflexivity; [by exists u|].
    exists role. split; [reflexivity|]. apply lookup_insert_eq.
  - destruct out; do 2 eexists; (split; [reflexivity|]); split_and!; reflexivity.
Qed.

Lemma login_reads_profile_aux (projectId email password : string) (ev : env)
    (w : world) (u : fbuser) (userData : obj) (role : string) :
  signIn_result ev = inr u →
  store_fault ev = None →
  secure_fault ev = None →
  Firestore.docs (firestore w) !! (profilesPath projectId (uid u), uid u)
  = Some userData →
  userData !! "role" = Some (VStr role) →
  (run ev (login projectId email password) w).2 = Resolved
  ∧ sess (run ev (login projectId email password) w).1
    = Session true (Some u) (VStr role) false (Some (uid u))
  ∧ SecureStore (run ev (login projectId email password) w).1
    = <["userRole" := role]> (SecureStore w).
Proof.
  intros Hsign Hstore Hsecure Hdoc Hrole.
  destruct ev; simpl in *; subst.
  unfold login, try_await. evaluate. rewrite Hdoc. unfold prop. rewrite Hrole.
  evaluate. done.
Qed.

(** X11. With sign-in succeeding and the collaborators reachable, [login]
    takes the role from the user's profile document, whatever SecureStore
    held before, and stores it there; it makes exactly one Firestore call,
    the read of that document. *)
Theorem login_reads_profile (projectId email password : string) (ev : env)
    (w : world) (u : fbuser) (userData : obj) (role : string) :
  signIn_result ev = inr u →
  store_fault ev = None →
  secure_fault ev = None →
  Firestore.docs (firestore w) !! (profilesPath projectId (uid u), uid u)
  = Some userData →
  userData !! "role" = Some (VStr role) →
  let w' := (run ev (login projectId email password) w).1 in
  (run ev (login projectId email password) w).2 = Resolved
  ∧ sess w' = Session true (Some u) (VStr role) false (Some (uid u))
  ∧ SecureStore w' = <["userRole" := role]> (SecureStore w)
  ∧ Firestore.calls (firestore w')
    = (Firestore.calls (firestore w)
       ++ [Firestore.CGetDoc (profilesPath projectId (uid u)) (uid u)])%list
  ∧ Firestore.docs (firestore w') = Firestore.docs (firestore w).
Proof.
  intros Hsign Hstore Hsecure Hdoc Hrole.
  destruct ev; simpl in *; subst.
  unfold login, try_await. evaluate. rewrite Hdoc. unfold prop. rewrite Hrole.
  evaluate. done.
Qed.

Lemma login_reads_profile_witness :
  let w := World initial_session None true [] {[ "userRole" := "agent" ]}
                 two_profiles [] in
  let w' := (run all_well (login "rentopia" "ada@example.com" "secret") w).1 in
  (run all_well (login "rentopia" "ada@example.com" "secret") w).2 = Resolved
  ∧ sess w' = Session true (Some ada) (VStr "renter") false (Some (uid ada))
  ∧ SecureStore w' = <["userRole" := "renter"]> (SecureStore w)
  ∧ Firestore.calls (firestore w')
    = (Firestore.calls (firestore w)
       ++ [Firestore.CGetDoc (profilesPath "rentopia" (uid ada)) (uid ada)])%list
  ∧ Firestore.docs (firestore w') = Firestore.docs (firestore w).
Proof.
  apply (login_reads_profile "rentopia" "ada@example.com" "secret" all_well
           (World initial_session None true [] {[ "userRole" := "agent" ]}
                  two_profiles []) ada {[ "role" := VStr "renter" ]} "renter");
    reflexivity.
Defined.

(** X12. However the collaborators answer, [register] ends with
    [isLoadingAuth] false.  If it rejects, the session is unauthenticated
    with [user] and [userRole] null.  If it resolves, the new user is signed
    in, the session is authenticated with the role passed in, that role is
    in SecureStore, the profile document holds it, and the only Firestore
    call made was the write of that document. *)
Theorem register_settles (projectId : string) (now : Z)
    (email password role firstName lastName phoneNumber : string)
    (agentDetails : option agent_details) (ev : env) (w : world) :
  ∃ w' out,
    run ev (register projectId now email password role firstName lastName
              phoneNumber agentDetails) w = (w', out)
    ∧ isLoadingAuth (sess w') = false
    ∧ match out with
      | Rejected _ =>
          isAuthenticated (sess w') = false
          ∧ user (sess w') = None
          ∧ userRole (sess w') = VNull
      | Resolved =>
          ∃ u, currentUser w' = Some u
               ∧ sess w' = Session true (Some u) (VStr role) false (Some (uid u))
               ∧ SecureStore w' !! "userRole" = Some role
               ∧ (∃ d, Firestore.docs (firestore w')
                         !! (profilesPath projectId (uid u), uid u) = Some d
                       ∧ d !! "role" = Some (VStr role)
                       ∧ d !! "userId" = Some (VStr (uid u)))
               ∧ Firestore.calls (firestore w')
                 = (Firestore.calls (firestore w)
                    ++ [Firestore.CSetDoc (profilesPath projectId (uid u)) (uid u)
                          false])%list
      end.
Proof.
  destruct ev as [si [e|u] tk out [e'|] [e''|]];
    unfold register, try_await; evaluate;
    try (do 2 eexists; split; [reflexivity|]; done).
  do 2 eexists. split; [reflexivity|]. evaluate.
  split; [done|]. exists u. split_and!; try done.
  - apply lookup_insert_eq.
  - eexists. split; [apply lookup_insert_eq|].
    unfold Firestore.written. rewrite !lookup_fmap.
    rewrite profileData_role. split; [done|].
    unfold profileData.
    destruct agentDetails as [[t l [c|]]|];
      [destruct (String.eqb role "agent")..|]; vm_compute; reflexivity.
Qed.

(** X13. A profile written by [register] is the profile [login] reads: if
    a user registers with a role and later logs in, with the store
    unchanged in between and the collaborators reachable, the login
    resolves with that role. *)
Theorem register_then_login (projectId : string) (now : Z)
    (email password role firstName lastName phoneNumber : string)
    (agentDetails : option agent_details) (ev ev' : env) (w : world)
    (u : fbuser) :
  signUp_result ev = inr u →
  store_fault ev = None →
  signIn_result ev' = inr u →
  store_fault ev' = None →
  secure_fault ev' = None →
  let w1 := (run ev (register projectId now email password role firstName
                       lastName phoneNumber agentDetails) w).1 in
  let w2 := (run ev' (login projectId email password) w1).1 in
  (run ev' (login projectId email password) w1).2 = Resolved
  ∧ sess w2 = Session true (Some u) (VStr role) false (Some (uid u))
  ∧ SecureStore w2 !! "userRole" = Some role.
Proof.
  intros Hup Hstore Hin Hstore' Hsecure'. intros w1 w2.
  assert (Hdoc : ∃ d,
    Firestore.docs (firestore w1) !! (profilesPath projectId (uid u), uid u)
    = Some d ∧ d !! "role" = Some (VStr role)).
  { unfold w1. clear w1 w2 Hin Hstore' Hsecure'.
    destruct ev as [si su tk out secure st]; simpl in *; subst.
    unfold register, try_await. evaluate. eexists. split.
    - destruct secure; evaluate; apply lookup_insert_eq.
    - unfold Firestore.written. by rewrite lookup_fmap, profileData_role. }
  destruct Hdoc as (d & Hd & Hrole).
  destruct (login_reads_profile_aux projectId email password ev' w1 u d role
              Hin Hstore' Hsecure' Hd Hrole) as (Hout & Hsess & Hcache).
  split_and!; [done|done|]. unfold w2. rewrite Hcache. apply lookup_insert_eq.
Qed.

Lemma register_then_login_witness :
  let w1 := (run all_well ada_registers (signed_out_world empty_store)).1 in
  let w2 := (run all_well (login "rentopia" "ada@example.com" "secret") w1).1 in
  (run all_well (login "rentopia" "ada@example.com" "secret") w1).2 = Resolved
  ∧ sess w2 = Session true (Some ada) (VStr "renter") false (Some (uid ada))
  ∧ SecureStore w2 !! "userRole" = Some "renter".
Proof.
  apply (register_then_login "rentopia" 1700000000000 "ada@example.com" "secret"
           "renter" "Ada" "Obi" "08012345678" None all_well all_well
           (signed_out_world empty_store) ada); reflexivity.
Defined.

(** X14. A pass that finds no cached role and an existing profile makes one
    Firestore call, the read of the profile, adopts its role and stores it
    in SecureStore; a pass run after it for the same user adopts the stored
    role and makes no Firestore call. *)
Theorem resolution_fills_cache (projectId : string) (ev : env) (w : world)
    (cu : fbuser) (userData : obj) (role : string) :
  secure_fault ev = None →
  store_fault ev = None →
  SecureStore w !! "userRole" = None →
  Firestore.docs (firestore w) !! (profilesPath projectId (uid cu), uid cu)
  = Some userData →
  userData !! "role" = Some (VStr role) →
  role ≠ "" →
  let w1 := (run ev (authStateChanged projectId (Some cu)) w).1 in
  let w2 := (run ev (authStateChanged projectId (Some cu)) w1).1 in
  (run ev (authStateChanged projectId (Some cu)) w).2 = Resolved
  ∧ sess w1 = Session true (Some cu) (VStr role) false (Some (uid cu))
  ∧ SecureStore w1 !! "userRole" = Some role
  ∧ Firestore.calls (firestore w1)
    = (Firestore.calls (firestore w)
       ++ [Firestore.CGetDoc (profilesPath projectId (uid cu)) (uid cu)])%list
  ∧ (run ev (authStateChanged projectId (Some cu)) w1).2 = Resolved
  ∧ sess w2 = sess w1
  ∧ firestore w2 = firestore w1.
Proof.
  intros Hsecure Hstore Hmiss Hdoc Hrole Hne. intros w1 w2.
  assert (H1 : run ev (authStateChanged projectId (Some cu)) w
               = (World (Session true (Some cu) (VStr role) false (Some (uid cu)))
                        (currentUser w) (listening w) (notifications w)
                        (<["userRole" := role]> (SecureStore w))
                        (Firestore.log
                           (Firestore.CGetDoc (profilesPath projectId (uid cu)) (uid cu))
                           (firestore w))
                        (console w), Resolved)).
  { destruct ev; simpl in *; subst.
    unfold authStateChanged, resolve_fetched, try_await. evaluate.
    rewrite Hmiss. evaluate. rewrite Hdoc. unfold prop. rewrite Hrole. evaluate.
    done. }
  unfold w2, w1. rewrite H1. evaluate. clear H1 w1 w2.
  destruct ev; simpl in *; subst.
  split_and!; try done; [apply lookup_insert_eq|..];
    unfold authStateChanged, try_await; evaluate;
    rewrite lookup_insert_eq; evaluate;
    destruct (String.eqb role "") eqn:Heq;
    try (apply String.eqb_eq in Heq; done); evaluate; done.
Qed.

Lemma resolution_fills_cache_witness :
  let w := World initial_session (Some ada) true [] ∅ two_profiles [] in
  let w1 := (run all_well (authStateChanged "rentopia" (Some ada)) w).1 in
  let w2 := (run all_well (authStateChanged "rentopia" (Some ada)) w1).1 in
  (run all_well (authStateChanged "rentopia" (Some ada)) w).2 = Resolved
  ∧ sess w1 = Session true (Some ada) (VStr "renter") false (Some (uid ada))
  ∧ SecureStore w1 !! "userRole" = Some "renter"
  ∧ Firestore.calls (firestore w1)
    = (Firestore.calls (firestore w)
       ++ [Firestore.CGetDoc (profilesPath "rentopia" (uid ada)) (uid ada)])%list
  ∧ (run all_well (authStateChanged "rentopia" (Some ada)) w1).2 = Resolved
  ∧ sess w2 = sess w1
  ∧ firestore w2 = firestore w1.
Proof.
  apply (resolution_fills_cache "rentopia" all_well
           (World initial_session (Some ada) true [] ∅ two_profiles []) ada
           {[ "role" := VStr "renter" ]} "renter");
    [reflexivity..|discriminate].
Defined.

(** X15. A pass that finds no cached role and no profile document signs the
    user out at Firebase Auth, removes the stored role, and leaves the
    session unauthenticated with [user], [userRole] and [userId] null and
    loading finished; it writes nothing to Firestore. *)
Theorem resolution_without_profile_signs_out (projectId : string) (ev : env)
    (w : world) (cu : fbuser) :
  secure_fault ev = None →
  store_fault ev = None →
  signOut_fault ev = None →
  SecureStore w !! "userRole" = None →
  Firestore.docs (firestore w) !! (profilesPath projectId (uid cu), uid cu) = None →
  let w' := (run ev (authStateChanged projectId (Some cu)) w).1 in
  (run ev (authStateChanged projectId (Some cu)) w).2 = Resolved
  ∧ currentUser w' = None
  ∧ sess w' = Session false None VNull false None
  ∧ SecureStore w' !! "userRole" = None
  ∧ Firestore.docs (firestore w') = Firestore.docs (firestore w).
Proof.
  intros Hsecure Hstore Hout Hmiss Hdoc.
  destruct ev; simpl in *; subst.
  unfold authStateChanged, resolve_fetched, try_await. evaluate.
  rewrite Hmiss. evaluate. rewrite Hdoc. evaluate.
  split_and!; try done. apply lookup_delete_eq.
Qed.

Lemma resolution_without_profile_signs_out_witness :
  let w := World initial_session (Some ada) true [] ∅ empty_store [] in
  let w' := (run all_well (authStateChanged "rentopia" (Some ada)) w).1 in
  (run all_well (authStateChanged "rentopia" (Some ada)) w).2 = Resolved
  ∧ currentUser w' = None
  ∧ sess w' = Session false None VNull false None
  ∧ SecureStore w' !! "userRole" = None
  ∧ Firestore.docs (firestore w') = Firestore.docs (firestore w).
Proof.
  apply (resolution_without_profile_signs_out "rentopia" all_well
           (World initial_session (Some ada) true [] ∅ empty_store []) ada);
    reflexivity.
Defined.

(** X16. Notified that nobody is signed in, the callback leaves the session
    unauthenticated with [user], [userRole] and [userId] null and loading
    finished, removes the stored role, and does not touch Firebase Auth or
    Firestore. *)
Theorem signed_out_notification_resets (projectId : string) (ev : env) (w : world) :
  secure_fault ev = None →
  run ev (authStateChanged projectId None) w
  = (World (Session false None VNull false None) (currentUser w) (listening w)
           (notifications w) (delete "userRole" (SecureStore w)) (firestore w)
           (console w),
     Resolved).
Proof.
  intros Hsecure. destruct ev; simpl in *; subst. reflexivity.
Qed.

Lemma signed_out_notification_resets_witness :
  run all_well (authStateChanged "rentopia" None)
      (World (Session true (Some ada) (VStr "renter") false (Some "uid-ada")) None
             true [] {[ "userRole" := "renter" ]} two_profiles [])
  = (World (Session false None VNull false None) None true []
           (delete "userRole" {[ "userRole" := "renter" ]}) two_profiles [],
     Resolved).
Proof.
  exact (signed_out_notification_resets "rentopia" all_well
           (World (Session true (Some ada) (VStr "renter") false (Some "uid-ada"))
                  None true [] {[ "userRole" := "renter" ]} two_profiles [])
           eq_refl).
Defined.

(** X17. [logout] itself only signs out at Firebase Auth and toggles
    [isLoadingAuth]: on success nobody is signed in, and [isAuthenticated],
    [user], [userRole], [userId], SecureStore and Firestore are as before;
    if [signOut] fails, [logout] logs, rejects with that error, and the user
    stays signed in. *)
Theorem logout_only_signs_out (ev : env) (w : world) :
  let w' := (run ev logout w).1 in
  sess w' = Session (isAuthenticated (sess w)) (user (sess w)) (userRole (sess w))
                    false (userId (sess w))
  ∧ SecureStore w' = SecureStore w
  ∧ firestore w' = firestore w
  ∧ match signOut_fault ev with
    | None =>
        (run ev logout w).2 = Resolved
        ∧ currentUser w' = None
        ∧ console w' = console w
    | Some e =>
        (run ev logout w).2 = Rejected e
        ∧ currentUser w' = currentUser w
        ∧ console w' = (console w ++ [ConsoleError "Logout failed:" (Some e)])%list
    end.
Proof.
  destruct ev as [si su tk [e|] secure st]; evaluate; done.
Qed.

(** X18. When [initializeApp], [initializeAuth] or [getFirestore] throws,
    or the custom-token sign-in rejects, [initializeFirebase] logs the
    error, leaves the session unauthenticated with loading finished, removes
    the stored role, and registers no auth-state listener. *)
Theorem initializeFirebase_failure (ev : env) (w : world) (e e' : error)
    (initialAuthToken : option string) (token : string) :
  secure_fault ev = None →
  token_result ev = inl e' →
  token ≠ "" →
  let reset (thrown : error) :=
    (World (Session false None VNull false None) (currentUser w) (listening w)
           (notifications w) (delete "userRole" (SecureStore w)) (firestore w)
           (console w
            ++ [ConsoleError "Error initializing Firebase or during initial auth check:"
                  (Some thrown)])%list,
     Resolved) in
  run ev (initializeFirebase (Some e) initialAuthToken) w = reset e
  ∧ run ev (initializeFirebase None (Some token)) w = reset e'.
Proof.
  intros Hsecure Htoken Hne.
  destruct ev as [si su tk out secure st]. simpl in Hsecure, Htoken. subst.
  split; [reflexivity|].
  unfold initializeFirebase, of_nullable, truthy.
  destruct (String.eqb token "") eqn:Heq.
  { apply String.eqb_eq in Heq. done. }
  reflexivity.
Qed.

Lemma initializeFirebase_failure_witness :
  let w := signed_out_world empty_store in
  let reset (thrown : error) :=
    (World (Session false None VNull false None) (currentUser w) (listening w)
           (notifications w) (delete "userRole" (SecureStore w)) (firestore w)
           (console w
            ++ [ConsoleError "Error initializing Firebase or during initial auth check:"
                  (Some thrown)])%list,
     Resolved) in
  run token_rejected (initializeFirebase (Some "no-app") None) w = reset "no-app"
  ∧ run token_rejected (initializeFirebase None (Some "tok")) w
    = reset "invalid-custom-token".
Proof.
  exact (initializeFirebase_failure token_rejected (signed_out_world empty_store)
           "no-app" "invalid-custom-token" None "tok" eq_refl eq_refl
           ltac:(discriminate)).
Defined.

(** X19. From rest with a user signed in and the listener registered,
    [logout] followed by the delivery of the sign-out notification leaves
    nobody signed in, the session unauthenticated with [user], [userRole]
    and [userId] null, the stored role removed, and nothing left to run. *)
Theorem logout_then_notification (projectId : string) (m : machine) (u : fbuser)
    (ev : env) :
  running m = None →
  awaiting m = [] →
  listening (mworld m) = true →
  notifications (mworld m) = [] →
  currentUser (mworld m) = Some u →
  signOut_fault ev = None →
  secure_fault ev = None →
  ∃ m',
    exec projectId
      [Invoke CallLogout; Tick; Tick; Settle 0 ev; Tick; Tick;
       Deliver; Tick; Tick; Tick; Tick; Tick; Settle 0 ev; Tick; Tick] m
    = Some m'
    ∧ currentUser (mworld m') = None
    ∧ sess (mworld m') = Session false None VNull false None
    ∧ SecureStore (mworld m') = delete "userRole" (SecureStore (mworld m))
    ∧ firestore (mworld m') = firestore (mworld m)
    ∧ running m' = None
    ∧ awaiting m' = []
    ∧ notifications (mworld m') = [].
Proof.
  intros Hrun Hawait Hlisten Hnotif Huser Hout Hsecure.
  destruct m as [[s cu li no ss fs co] r a mo la rej].
  destruct ev as [si su tk out secure st].
  simpl in Hrun, Hawait, Hlisten, Hnotif, Huser, Hout, Hsecure. subst.
  eexists. split; [vm_compute; reflexivity|]. vm_compute. done.
Qed.

Lemma logout_then_notification_witness :
  ∃ m',
    exec "rentopia"
      [Invoke CallLogout; Tick; Tick; Settle 0 all_well; Tick; Tick;
       Deliver; Tick; Tick; Tick; Tick; Tick; Settle 0 all_well; Tick; Tick]
      ada_signed_in
    = Some m'
    ∧ currentUser (mworld m') = None
    ∧ sess (mworld m') = Session false None VNull false None
    ∧ SecureStore (mworld m') = delete "userRole" (SecureStore (mworld ada_signed_in))
    ∧ firestore (mworld m') = firestore (mworld ada_signed_in)
    ∧ running m' = None
    ∧ awaiting m' = []
    ∧ notifications (mworld m') = [].
Proof.
  exact (logout_then_notification "rentopia" ada_signed_in ada all_well
           eq_refl eq_refl eq_refl eq_refl eq_refl eq_refl eq_refl).
Defined.

(** X20. A cold start with nobody signed in: once the effect has mounted
    and the first notification has been handled, the session is
    unauthenticated with loading finished, the stored role is removed and
    nothing is left to run; at every earlier point of that run
    [isLoadingAuth] is still true and [isAuthenticated] false. *)
Theorem cold_start_ends_unauthenticated (projectId : string)
    (store : gmap string string) (fs : Firestore.t) :
  exec projectId cold_start (start None store fs)
  = Some (Machine (World (Session false None VNull false None) None true []
                         (delete "userRole" store) fs [])
                  None [] true (Some None) [])
  ∧ ∀ n m, (n < length cold_start - 1)%nat →
           exec projectId (take n cold_start) (start None store fs) = Some m →
           isLoadingAuth (sess (mworld m)) = true
           ∧ isAuthenticated (sess (mworld m)) = false.
Proof.
  split; [reflexivity|].
  intros n m Hn Hexec.
  do 11 (destruct n as [|n];
         [vm_compute in Hexec; injection Hexec as <-; split; reflexivity|]).
  vm_compute in Hn. lia.
Qed.

End SessionRuns.

(** * Properties of the screens built on the session and the service *)

Section ScreenFacts.

(** X21. The root layout renders the loading indicator exactly when its
    redirect effect does not navigate: it never navigates while the
    indicator is shown, and whenever the stack is rendered a route has been
    chosen. *)
Theorem loading_iff_no_redirect (isAuthenticated : bool) (userRole : val)
    (isLoadingAuth fontsLoaded fontError : bool) :
  RootLayout.shows_loading isLoadingAuth fontsLoaded fontError = true
  ↔ RootLayout.redirect isAuthenticated userRole isLoadingAuth fontsLoaded
      fontError = None.
Proof.
  unfold RootLayout.shows_loading, RootLayout.redirect.
  destruct isLoadingAuth, fontsLoaded, fontError, isAuthenticated; simpl;
    repeat case_bool_decide; split; intros; done.
Qed.

(** X22. Once [login] has settled and the fonts are ready, the root layout
    navigates: to the login screen if [login] rejected; if it resolved, to
    the agent screens when the role now stored in SecureStore is "agent"
    and to the renter screens for any other role. *)
Theorem login_then_redirect (projectId email password : string) (ev : env)
    (w : world) :
  ∃ w' out,
    run ev (login projectId email password) w = (w', out)
    ∧ ∀ fontsLoaded fontError,
        fontsLoaded || fontError = true →
        RootLayout.redirect (isAuthenticated (sess w')) (userRole (sess w'))
          (isLoadingAuth (sess w')) fontsLoaded fontError
        = Some match out with
               | Rejected _ => "/(auth)/login"
               | Resolved =>
                   if bool_decide (SecureStore w' !! "userRole" = Some "agent")
                   then "/(agent)" else "/(renter)"
               end.
Proof.
  assert (Hrej : ∀ (s : session) fl fe,
             isAuthenticated s = false → isLoadingAuth s = false →
             fl || fe = true →
             RootLayout.redirect (isAuthenticated s) (userRole s)
               (isLoadingAuth s) fl fe = Some "/(auth)/login").
  { intros s fl fe -> -> Hf. unfold RootLayout.redirect. by rewrite Hf. }
  destruct ev as [[e|u] up tk out secure [e'|]];
    try (do 2 eexists; split; [reflexivity|]; intros; by apply Hrej).
  rewrite run_login_signed_in.
  destruct (Firestore.docs (firestore w) !! (profilesPath projectId (uid u), uid u))
    as [userData|].
  - unfold login_fetched.
    destruct secure as [e|];
      [do 2 eexists; split; [reflexivity|]; intros; by apply Hrej|].
    destruct (prop userData "role") as [| | | |role| | |];
      try (do 2 eexists; split; [reflexivity|]; intros; by apply Hrej).
    do 2 eexists. split; [reflexivity|]. intros fl fe Hf.
    unfold RootLayout.redirect.
    change (isLoadingAuth _) with false. change (isAuthenticated _) with true.
    change (userRole _) with (VStr role).
    change (SecureStore _) with (<["userRole" := role]> (SecureStore w)).
    rewrite Hf, lookup_insert_eq. simpl.
    repeat case_bool_decide; simplify_eq; done.
  - destruct out; do 2 eexists; (split; [reflexivity|]); intros; by apply Hrej.
Qed.

End ScreenFacts.

(** * Properties of the paths of [firestorePaths] *)

Section PathFacts.
Import Firestore FirestoreService.

Lemma string_app_nil_r (s : string) : s +:+ "" = s.
Proof.
  induction s as [|a s IH]; [done|].
  change (String a s +:+ "") with (String a (s +:+ "")). by rewrite IH.
Qed.

Lemma string_app_snoc (s t : string) (c : ascii) :
  (s +:+ String c "") +:+ t = s +:+ String c t.
Proof.
  induction s as [|a s IH]; [done|].
  change (String a (s +:+ String c "") +:+ t = String a (s +:+ String c t)).
  change (String a ((s +:+ String c "") +:+ t) = String a (s +:+ String c t)).
  by rewrite IH.
Qed.

Lemma segments_go_slash_free (s t cur : string) :
  slash_free s = true →
  segments_go (s +:+ t) cur = segments_go t (cur +:+ s).
Proof.
  revert cur. induction s as [|c s IH]; intros cur Hs.
  - by rewrite string_app_nil_r.
  - simpl in Hs. apply andb_true_iff in Hs as [Hc Hs].
    apply negb_true_iff in Hc.
    change (String c s +:+ t) with (String c (s +:+ t)).
    cbn [segments_go]. rewrite Hc, IH by done. by rewrite string_app_snoc.
Qed.

Lemma segments_go_segment (s cur : string) :
  slash_free s = true → segments_go s cur = [cur +:+ s].
Proof.
  intros Hs. rewrite <- (string_app_nil_r s) at 1.
  by rewrite segments_go_slash_free.
Qed.

Lemma segments_public (projectId last : string) :
  slash_free projectId = true →
  slash_free last = true →
  segments ("artifacts/" +:+ projectId +:+ "/public/data/" +:+ last)
  = ["artifacts"; projectId; "public"; "data"; last].
Proof.
  intros Hp Hlast. unfold segments.
  change (segments_go ("artifacts/" +:+ projectId +:+ "/public/data/" +:+ last) "")
    with ("artifacts" :: segments_go (projectId +:+ "/public/data/" +:+ last) "").
  rewrite segments_go_slash_free by done.
  change (segments_go ("/public/data/" +:+ last) ("" +:+ projectId))
    with (projectId :: "public" :: "data" :: segments_go last "").
  by rewrite segments_go_segment.
Qed.

Lemma segments_users (projectId userId last : string) :
  slash_free projectId = true →
  slash_free userId = true →
  slash_free last = true →
  segments ("artifacts/" +:+ projectId +:+ "/users/" +:+ userId +:+ "/" +:+ last)
  = ["artifacts"; projectId; "users"; userId; last].
Proof.
  intros Hp Hu Hlast. unfold segments.
  change (segments_go
            ("artifacts/" +:+ projectId +:+ "/users/" +:+ userId +:+ "/" +:+ last) "")
    with ("artifacts"
          :: segments_go (projectId +:+ "/users/" +:+ userId +:+ "/" +:+ last) "").
  rewrite segments_go_slash_free by done.
  change (segments_go ("/users/" +:+ userId +:+ "/" +:+ last) ("" +:+ projectId))
    with (projectId :: "users" :: segments_go (userId +:+ "/" +:+ last) "").
  rewrite segments_go_slash_free by done.
  change (segments_go ("/" +:+ last) ("" +:+ userId))
    with (userId :: segments_go last "").
  by rewrite segments_go_segment.
Qed.

Lemma valid_five_segments (path : string) (a b c d e : string) :
  segments path = [a; b; c; d; e] →
  Forall (λ s, s ≠ "") [a; b; c; d; e] →
  valid_collection_path path = true.
Proof.
  intros Hsegs Hne. unfold valid_collection_path. rewrite Hsegs.
  apply andb_true_iff. split; [done|].
  apply forallb_forall. intros s Hs. apply negb_true_iff, String.eqb_neq.
  rewrite Forall_forall in Hne. by apply Hne, list_elem_of_In.
Qed.

(** X23. For a project id and user ids that are non-empty and contain no
    slash, the five paths of [firestorePaths] are valid collection paths,
    so [listenToCollection] on any of them never takes its error exit and,
    for conditions that the SDK accepts, registers a listener for them; no
    two of the paths coincide; and the profile document is the one
    [AuthContext] reads and writes. *)
Theorem firestorePaths_collections (sdk : validation)
    (projectId userId agentId renterId : string)
    (db : dbref) (conditions : list condition) (fs : t) :
  Forall (λ s, s ≠ "" ∧ slash_free s = true)
    [projectId; userId; agentId; renterId] →
  let paths :=
    [firestorePaths.getPublicListingsCollection projectId;
     firestorePaths.getPublicPaymentsCollection projectId;
     (firestorePaths.getUserProfileDoc projectId userId).1;
     firestorePaths.getAgentListingsCollection projectId agentId;
     firestorePaths.getRenterApplicationsCollection projectId renterId] in
  firestorePaths.getUserProfileDoc projectId userId
  = (profilesPath projectId userId, userId)
  ∧ NoDup paths
  ∧ Forall (λ path,
       valid_collection_path path = true
       ∧ (accepts sdk (Query path []) conditions = true →
          (listenToCollection sdk (Some db) path conditions fs).2
          = CollectionListener (Query path conditions))) paths.
Proof.
  intros Hids.
  apply Forall_cons in Hids as [[Hp Hp'] Hids].
  apply Forall_cons in Hids as [[Hu Hu'] Hids].
  apply Forall_cons in Hids as [[Ha Ha'] Hids].
  apply Forall_cons in Hids as [[Hr Hr'] _].
  intros paths.
  pose proof (segments_public projectId "listings" Hp' eq_refl) as S1.
  pose proof (segments_public projectId "payments" Hp' eq_refl) as S2.
  pose proof (segments_users projectId userId "profiles" Hp' Hu' eq_refl) as S3.
  pose proof (segments_users projectId agentId "agentListings" Hp' Ha' eq_refl)
    as S4.
  pose proof (segments_users projectId renterId "applications" Hp' Hr' eq_refl)
    as S5.
  split; [done|]. split.
  - assert (Hsegs : segments <$> paths
              = [["artifacts"; projectId; "public"; "data"; "listings"];
                 ["artifacts"; projectId; "public"; "data"; "payments"];
                 ["artifacts"; projectId; "users"; userId; "profiles"];
                 ["artifacts"; projectId; "users"; agentId; "agentListings"];
                 ["artifacts"; projectId; "users"; renterId; "applications"]]).
    { unfold paths. rewrite !fmap_cons, fmap_nil.
      by rewrite <- S1, <- S2, <- S3, <- S4, <- S5. }
    apply (NoDup_fmap_1 segments). rewrite Hsegs.
    repeat (apply NoDup_cons_2;
            [rewrite ?not_elem_of_cons; split_and?;
             try apply not_elem_of_nil; congruence|]).
    apply NoDup_nil_2.
  - assert (Hvalid : Forall (λ path, valid_collection_path path = true) paths).
    { unfold paths. repeat apply Forall_cons_2; [..|apply Forall_nil_2].
      - apply (valid_five_segments _ _ _ _ _ _ S1). by repeat constructor.
      - apply (valid_five_segments _ _ _ _ _ _ S2). by repeat constructor.
      - apply (valid_five_segments _ _ _ _ _ _ S3). by repeat constructor.
      - apply (valid_five_segments _ _ _ _ _ _ S4). by repeat constructor.
      - apply (valid_five_segments _ _ _ _ _ _ S5). by repeat constructor. }
    eapply Forall_impl; [exact Hvalid|]. intros path Hpath. split; [done|].
    intros Hacc. by apply listenToCollection_query.
Qed.

Lemma firestorePaths_collections_witness :
  let paths :=
    [firestorePaths.getPublicListingsCollection "rentopia";
     firestorePaths.getPublicPaymentsCollection "rentopia";
     (firestorePaths.getUserProfileDoc "rentopia" "uid-ada").1;
     firestorePaths.getAgentListingsCollection "rentopia" "uid-bob";
     firestorePaths.getRenterApplicationsCollection "rentopia" "uid-ada"] in
  firestorePaths.getUserProfileDoc "rentopia" "uid-ada"
  = (profilesPath "rentopia" "uid-ada", "uid-ada")
  ∧ NoDup paths
  ∧ Forall (λ path,
       valid_collection_path path = true
       ∧ (accepts two_checks (Query path []) of_agent_A1 = true →
          (listenToCollection two_checks (Some (Db (VStr "rentopia"))) path
             of_agent_A1 empty_store).2
          = CollectionListener (Query path of_agent_A1))) paths.
Proof.
  apply (firestorePaths_collections two_checks "rentopia" "uid-ada" "uid-bob"
           "uid-ada" (Db (VStr "rentopia")) of_agent_A1 empty_store).
  repeat constructor; done.
Defined.

End PathFacts.

(** * Properties of the profile listener of [UserProvider] *)

Section ProfileFacts.

Lemma string_length_app (s t : string) :
  String.length (s +:+ t) = (String.length s + String.length t)%nat.
Proof.
  induction s as [|a s IH]; [done|].
  change (String a s +:+ t) with (String a (s +:+ t)). simpl. by rewrite IH.
Qed.

Lemma string_app_inv_tail (s1 s2 t : string) :
  s1 +:+ t = s2 +:+ t → s1 = s2.
Proof.
  revert s2. induction s1 as [|a s1 IH]; intros [|b s2] Heq.
  - done.
  - apply (f_equal String.length) in Heq.
    rewrite !string_length_app in Heq. simpl in Heq. lia.
  - apply (f_equal String.length) in Heq.
    rewrite !string_length_app in Heq. simpl in Heq. lia.
  - change (String a (s1 +:+ t) = String b (s2 +:+ t)) in Heq.
    injection Heq as -> Heq. f_equal. by apply IH.
Qed.

Lemma profilesPath_inj (p1 p2 currentUserId : string) :
  profilesPath p1 currentUserId = profilesPath p2 currentUserId → p1 = p2.
Proof.
  unfold profilesPath. intros Heq.
  apply (inj (String.append "artifacts/")) in Heq.
  by apply string_app_inv_tail in Heq.
Qed.

Lemma profile_key_inj (p1 p2 currentUserId : string) :
  (profilesPath p1 currentUserId, currentUserId)
  = (profilesPath p2 currentUserId, currentUserId) → p1 = p2.
Proof.
  intros Heq. apply (f_equal fst) in Heq. by apply profilesPath_inj in Heq.
Qed.

Lemma truthy_of_nullable (o : option string) :
  truthy (of_nullable o) = true ↔ ∃ s, o = Some s ∧ s ≠ "".
Proof.
  destruct o as [s|]; simpl.
  - rewrite negb_true_iff, String.eqb_neq. split; [intros ?; by exists s|].
    by intros (? & [= <-] & ?).
  - split; [done|]. by intros (? & ? & ?).
Qed.

Lemma fetchUserProfile_listens (firebaseConfig : gmap string string)
    (projectId userId : string) (st : UserContext.state) :
  firebaseConfig !! "projectId" = Some projectId →
  projectId ≠ "" →
  userId ≠ "" →
  UserContext.fetchUserProfile firebaseConfig None (Some userId) true false st
  = (UserContext.State (UserContext.userProfile st) true None,
     Some (profilesPath (UserContext.localAppId firebaseConfig) userId, userId)).
Proof.
  intros Hp Hne Hu. unfold UserContext.fetchUserProfile.
  assert (truthy (of_nullable (Some userId)) = true) as ->
    by (apply truthy_of_nullable; eauto).
  assert (UserContext.config_incomplete firebaseConfig = false) as ->; [|done].
  unfold UserContext.config_incomplete. apply orb_false_iff. split.
  - apply bool_decide_eq_false. intros ->. by rewrite lookup_empty in Hp.
  - apply negb_false_iff, truthy_of_nullable. eauto.
Qed.

Lemma localAppId_projectId (firebaseConfig : gmap string string)
    (projectId : string) :
  firebaseConfig !! "projectId" = Some projectId →
  UserContext.localAppId firebaseConfig = projectId
  ↔ firebaseConfig !! "appId" = None
    ∨ firebaseConfig !! "appId" = Some ""
    ∨ firebaseConfig !! "appId" = Some projectId.
Proof.
  intros Hp. unfold UserContext.localAppId. rewrite Hp.
  destruct (firebaseConfig !! "appId") as [a|]; simpl; [|by split; [left|]].
  destruct (String.eqb_spec a "") as [->|Ha]; simpl.
  - split; [by right; left|done].
  - split; [intros ->; by right; right|].
    by intros [|[[= ->]|[= ->]]].
Qed.

Lemma profileData_base (now : Z) (email role firstName lastName
    phoneNumber currentUserId : string) (agentDetails : option agent_details) :
  let d := profileData now email role firstName lastName phoneNumber
             currentUserId agentDetails in
  d !! "id" = None
  ∧ d !! "userId" = Some (VStr currentUserId)
  ∧ d !! "email" = Some (VStr email)
  ∧ d !! "firstName" = Some (VStr firstName)
  ∧ d !! "lastName" = Some (VStr lastName)
  ∧ d !! "phoneNumber" = Some (VStr phoneNumber).
Proof.
  unfold profileData.
  destruct agentDetails as [[t l [c|]]|]; [destruct (String.eqb role "agent")..|];
    repeat split; vm_compute; reflexivity.
Qed.

Lemma register_resolved_world (projectId : string) (now : Z)
    (email password role firstName lastName phoneNumber : string)
    (agentDetails : option agent_details) (si tk : error + fbuser)
    (out : option error) (u : fbuser) (w : world) :
  let w1 := (run (Env si (inr u) tk out None None)
               (register projectId now email password role firstName lastName
                  phoneNumber agentDetails) w).1 in
  sess w1 = Session true (Some u) (VStr role) false (Some (uid u))
  ∧ Firestore.docs (firestore w1)
    = <[(profilesPath projectId (uid u), uid u) :=
          Firestore.resolve (Firestore.clock (firestore w))
          <$> profileData now email role firstName lastName phoneNumber
                (uid u) agentDetails]> (Firestore.docs (firestore w)).
Proof. split; reflexivity. Qed.

(** X24. After a registration that resolves, the effect of [UserProvider]
    starts a listener for the new user, and its first snapshot ends the
    loading state.  If the configuration has no [appId], an empty one, or
    one equal to the project id, the listener is on the profile document
    just written and the snapshot is the registered profile with the user's
    id.  With any other [appId] the listener is on a document under that
    [appId], and the provider shows whatever was stored there before the
    registration. *)
Theorem registered_profile_listened (firebaseConfig : gmap string string)
    (projectId : string) (now : Z)
    (email password role firstName lastName phoneNumber : string)
    (agentDetails : option agent_details) (ev : env) (w : world) (u : fbuser)
    (st : UserContext.state) :
  firebaseConfig !! "projectId" = Some projectId →
  projectId ≠ "" →
  uid u ≠ "" →
  signUp_result ev = inr u →
  store_fault ev = None →
  secure_fault ev = None →
  let w1 := (run ev (register projectId now email password role firstName
                       lastName phoneNumber agentDetails) w).1 in
  let started :=
    UserContext.fetchUserProfile firebaseConfig None (userId (sess w1))
      (isAuthenticated (sess w1)) (isLoadingAuth (sess w1)) st in
  ∃ target,
    started.2 = Some target
    ∧ let st' := UserContext.deliver target (firestore w1) started.1 in
      UserContext.isLoadingProfile st' = false
      ∧ (firebaseConfig !! "appId" = None
         ∨ firebaseConfig !! "appId" = Some ""
         ∨ firebaseConfig !! "appId" = Some projectId →
         target = (profilesPath projectId (uid u), uid u)
         ∧ ∃ p, UserContext.userProfile st' = Some p
                ∧ p !! "id" = Some (VStr (uid u))
                ∧ p !! "userId" = Some (VStr (uid u))
                ∧ p !! "role" = Some (VStr role)
                ∧ p !! "email" = Some (VStr email)
                ∧ p !! "firstName" = Some (VStr firstName)
                ∧ p !! "lastName" = Some (VStr lastName)
                ∧ p !! "phoneNumber" = Some (VStr phoneNumber))
      ∧ (∀ appId, firebaseConfig !! "appId" = Some appId →
                  appId ≠ "" → appId ≠ projectId →
         target = (profilesPath appId (uid u), uid u)
         ∧ target ≠ (profilesPath projectId (uid u), uid u)
         ∧ UserContext.userProfile st'
           = FirestoreService.with_id (uid u)
             <$> Firestore.docs (firestore w) !! target).
Proof.
  intros Hp Hne Hu Hup Hstore Hsecure.
  destruct ev as [si su tk out secure store]; simpl in Hup, Hstore, Hsecure;
    subst.
  intros w1 started.
  destruct (register_resolved_world projectId now email password role firstName
              lastName phoneNumber agentDetails si tk out u w) as [Hsess Hdocs].
  fold w1 in Hsess, Hdocs.
  assert (Hstarted : started
            = (UserContext.State (UserContext.userProfile st) true None,
               Some (profilesPath (UserContext.localAppId firebaseConfig) (uid u),
                     uid u))).
  { unfold started. rewrite Hsess.
    by apply (fetchUserProfile_listens _ projectId). }
  clearbody w1 started. subst started.
  eexists. split; [reflexivity|].
  unfold UserContext.deliver, UserContext.on_snapshot. cbn [fst snd].
  rewrite Hdocs. split; [by case_match|]. split.
  - intros Happ. apply (localAppId_projectId _ _ Hp) in Happ as ->.
    split; [done|].
    rewrite lookup_insert_eq. eexists. split; [reflexivity|].
    rewrite !with_id_lookup, !lookup_fmap.
    rewrite profileData_role.
    destruct (profileData_base now email role firstName lastName phoneNumber
                (uid u) agentDetails) as (-> & -> & -> & -> & -> & ->).
    repeat split.
  - intros appId Happ Hfilled Hother.
    assert (Hlocal : UserContext.localAppId firebaseConfig = appId).
    { unfold UserContext.localAppId. rewrite Happ. simpl.
      by apply String.eqb_neq in Hfilled as ->. }
    rewrite Hlocal.
    assert (Hkey : (profilesPath appId (uid u), uid u)
                   ≠ (profilesPath projectId (uid u), uid u)).
    { intros Heq. by apply profile_key_inj in Heq. }
    split; [done|]. split; [done|].
    rewrite lookup_insert_ne by done.
    by destruct (Firestore.docs (firestore w) !! _).
Qed.

Lemma registered_profile_listened_witness :
  let cfg : gmap string string :=
    {[ "projectId" := "rentopia"; "appId" := "1:42:web:abc" ]} in
  let w1 := (run all_well ada_registers (signed_out_world empty_store)).1 in
  let started :=
    UserContext.fetchUserProfile cfg None
      (userId (sess w1)) (isAuthenticated (sess w1)) (isLoadingAuth (sess w1))
      UserContext.initial_state in
  ∃ target,
    started.2 = Some target
    ∧ let st' := UserContext.deliver target (firestore w1) started.1 in
      UserContext.isLoadingProfile st' = false
      ∧ (cfg !! "appId" = None
         ∨ cfg !! "appId" = Some ""
         ∨ cfg !! "appId" = Some "rentopia" →
         target = (profilesPath "rentopia" (uid ada), uid ada)
         ∧ ∃ p, UserContext.userProfile st' = Some p
                ∧ p !! "id" = Some (VStr (uid ada))
                ∧ p !! "userId" = Some (VStr (uid ada))
                ∧ p !! "role" = Some (VStr "renter")
                ∧ p !! "email" = Some (VStr "ada@example.com")
                ∧ p !! "firstName" = Some (VStr "Ada")
                ∧ p !! "lastName" = Some (VStr "Obi")
                ∧ p !! "phoneNumber" = Some (VStr "08012345678"))
      ∧ (∀ appId, cfg !! "appId" = Some appId →
                  appId ≠ "" → appId ≠ "rentopia" →
         target = (profilesPath appId (uid ada), uid ada)
         ∧ target ≠ (profilesPath "rentopia" (uid ada), uid ada)
         ∧ UserContext.userProfile st'
           = FirestoreService.with_id (uid ada)
             <$> Firestore.docs (firestore (signed_out_world empty_store))
                   !! target).
Proof.
  apply (registered_profile_listened
           {[ "projectId" := "rentopia"; "appId" := "1:42:web:abc" ]} "rentopia"
           1700000000000 "ada@example.com" "secret" "renter" "Ada" "Obi"
           "08012345678" None all_well (signed_out_world empty_store) ada
           UserContext.initial_state); done.
Defined.

End ProfileFacts.

(** * Properties of the registration form *)

Section RegistrationFacts.
Import RegisterScreen.

Lemma blank_false (s : string) : blank s = false ↔ s ≠ "".
Proof. unfold blank. apply String.eqb_neq. Qed.

Lemma unset_false (o : option string) :
  unset o = false ↔ ∃ s, o = Some s ∧ s ≠ "".
Proof.
  unfold unset. rewrite negb_false_iff. destruct o as [s|]; simpl.
  - rewrite negb_true_iff, String.eqb_neq. split; [intros ?; by exists s|].
    by intros (? & [= <-] & ?).
  - split; [done|]. by intros (? & ? & ?).
Qed.

Lemma or_null_filled (s : string) : s ≠ "" → or_null s = VStr s.
Proof. intros Hs. unfold or_null. by apply String.eqb_neq in Hs as ->. Qed.

(** What the checks of [handleRegister] have established when it goes on
    to call [register]. *)
Lemma handleRegister_passed (f : form) (c : register_call) :
  handleRegister f = inr c →
  ∃ role details,
    selectedRole f = Some role ∧ role ≠ ""
    ∧ firstName f ≠ "" ∧ lastName f ≠ "" ∧ email f ≠ ""
    ∧ phoneNumber f ≠ "" ∧ password f ≠ ""
    ∧ (6 ≤ String.length (password f))%nat
    ∧ password f = confirmPassword f
    ∧ phone_valid (phoneNumber f) = true
    ∧ c = RegisterCall (email f) (password f) role (firstName f) (lastName f)
            (phoneNumber f) details
    ∧ (role ≠ "agent" → details = None)
    ∧ (role = "agent" →
       ∃ t, agentAccountType f = Some t ∧ t ≠ "" ∧ lasreraNumber f ≠ ""
            ∧ (t = "company" → cacNumber f ≠ "")
            ∧ details
              = Some (AgentDetails (VStr t) (VStr (lasreraNumber f))
                        (if bool_decide (t = "company")
                         then Some (VStr (cacNumber f)) else None))).
Proof.
  unfold handleRegister.
  destruct (blank (firstName f)) eqn:H1; [done|].
  destruct (blank (lastName f)) eqn:H2; [done|].
  destruct (blank (email f)) eqn:H3; [done|].
  destruct (blank (phoneNumber f)) eqn:H4; [done|].
  destruct (blank (password f)) eqn:H5; [done|].
  destruct (blank (confirmPassword f)) eqn:H6; [done|].
  destruct (unset (selectedRole f)) eqn:H7; [done|].
  cbn [orb].
  destruct (String.length (password f) <? 6)%nat eqn:H8; [done|].
  destruct (String.eqb (password f) (confirmPassword f)) eqn:H9; [|done].
  destruct (phone_valid (phoneNumber f)) eqn:H10; [|done].
  cbn [negb].
  apply blank_false in H1, H2, H3, H4, H5, H6.
  apply unset_false in H7 as (role & Hrole & Hne).
  apply Nat.ltb_ge in H8. apply String.eqb_eq in H9.
  rewrite Hrole. cbn [default id].
  destruct (String.eqb_spec role "agent") as [->|Hagent]; cbn [andb].
  - destruct (unset (agentAccountType f)) eqn:H11; [done|].
    destruct (blank (lasreraNumber f)) eqn:H12; [done|].
    apply unset_false in H11 as (t & Ht & Htne). apply blank_false in H12.
    rewrite Ht. cbn [default id].
    assert (Hdec : bool_decide (Some t = Some "company")
                   = bool_decide (t = "company")).
    { apply bool_decide_ext. split; [by intros [= ->]|by intros ->]. }
    rewrite Hdec.
    destruct (bool_decide (t = "company")) eqn:Ht'; cbn [andb].
    + destruct (blank (cacNumber f)) eqn:H13; [done|].
      apply blank_false in H13. intros [= <-].
      exists "agent". eexists. split_and!; try done. intros _. exists t.
      rewrite Ht', !or_null_filled by done. by split_and!.
    + intros [= <-].
      exists "agent". eexists. split_and!; try done. intros _. exists t.
      rewrite Ht', !or_null_filled by done. split_and!; try done.
      intros ->. by apply bool_decide_eq_false in Ht'.
  - intros [= <-]. exists role, None. by split_and!.
Qed.

Lemma phone_valid_digits (s : string) :
  phone_valid s = true →
  Forall (λ ch, is_digit ch = true) (String.list_ascii_of_string s)
  ∧ (10 ≤ String.length s ≤ 15)%nat.
Proof.
  unfold phone_valid. rewrite !andb_true_iff, forallb_forall, Forall_forall.
  rewrite !Nat.leb_le. intros [[Hd ?] ?]. split; [|lia].
  intros ch Hch. apply Hd. by apply list_elem_of_In.
Qed.

(** X25. Whenever [handleRegister] calls [register], the arguments are the
    form's fields with the selected role; no text field is empty; the
    password has at least six characters and equals its confirmation; the
    phone number consists of ten to fifteen decimal digits. *)
Theorem handleRegister_call_checked (f : form) (c : register_call) :
  handleRegister f = inr c →
  selectedRole f = Some (call_role c)
  ∧ (call_email c, call_password c, call_firstName c, call_lastName c,
     call_phoneNumber c)
    = (email f, password f, firstName f, lastName f, phoneNumber f)
  ∧ Forall (λ s, s ≠ "")
      [call_email c; call_password c; call_role c; call_firstName c;
       call_lastName c; call_phoneNumber c]
  ∧ (6 ≤ String.length (call_password c))%nat
  ∧ call_password c = confirmPassword f
  ∧ Forall (λ ch, is_digit ch = true)
      (String.list_ascii_of_string (call_phoneNumber c))
  ∧ (10 ≤ String.length (call_phoneNumber c) ≤ 15)%nat.
Proof.
  intros Hcall.
  apply handleRegister_passed in Hcall
    as (role & details & Hrole & ? & ? & ? & ? & ? & ? & ? & ? & Hphone & -> & _).
  cbn [call_email call_password call_role call_firstName call_lastName
       call_phoneNumber].
  apply phone_valid_digits in Hphone as [? [? ?]].
  split_and!; try done. by repeat constructor.
Qed.

Lemma handleRegister_call_checked_witness :
  let f := Form "Ada" "Obi" "ada@example.com" "08012345678" "secret" "secret"
             (Some "renter") None "" "" in
  let c := RegisterCall "ada@example.com" "secret" "renter" "Ada" "Obi"
             "08012345678" None in
  selectedRole f = Some (call_role c)
  ∧ (call_email c, call_password c, call_firstName c, call_lastName c,
     call_phoneNumber c)
    = (email f, password f, firstName f, lastName f, phoneNumber f)
  ∧ Forall (λ s, s ≠ "")
      [call_email c; call_password c; call_role c; call_firstName c;
       call_lastName c; call_phoneNumber c]
  ∧ (6 ≤ String.length (call_password c))%nat
  ∧ call_password c = confirmPassword f
  ∧ Forall (λ ch, is_digit ch = true)
      (String.list_ascii_of_string (call_phoneNumber c))
  ∧ (10 ≤ String.length (call_phoneNumber c) ≤ 15)%nat.
Proof.
  apply (handleRegister_call_checked
           (Form "Ada" "Obi" "ada@example.com" "08012345678" "secret" "secret"
              (Some "renter") None "" "")).
  reflexivity.
Defined.

(** X26. The profile that [register] builds from a call made by
    [handleRegister] has no null or undefined field: every field is a
    non-empty string, except [createdAt], a date, and [userId], the uid.
    It has the agent's account type and licence number exactly for the
    role "agent", and a [cacNumber] exactly for an agent whose account
    type is "company". *)
Theorem validated_profile_filled (f : form) (c : register_call) (now : Z)
    (currentUserId : string) :
  handleRegister f = inr c →
  let d := profileData now (call_email c) (call_role c) (call_firstName c)
             (call_lastName c) (call_phoneNumber c) currentUserId
             (call_agentDetails c) in
  (∀ k v, d !! k = Some v →
          (k = "createdAt" ∧ v = VDate now)
          ∨ (k = "userId" ∧ v = VStr currentUserId)
          ∨ ∃ s, v = VStr s ∧ s ≠ "")
  ∧ (is_Some (d !! "agentAccountType") ↔ selectedRole f = Some "agent")
  ∧ (is_Some (d !! "lasreraNumber") ↔ selectedRole f = Some "agent")
  ∧ (is_Some (d !! "cacNumber")
     ↔ selectedRole f = Some "agent" ∧ agentAccountType f = Some "company").
Proof.
  intros Hcall.
  apply handleRegister_passed in Hcall
    as (role & details & Hrole & ? & ? & ? & ? & ? & ? & ? & ? & _ & -> & Hother
        & Hagent).
  cbn [call_email call_password call_role call_firstName call_lastName
       call_phoneNumber call_agentDetails].
  assert (Hbase : ∀ k v,
    ({[ "email" := VStr (email f); "role" := VStr role;
        "firstName" := VStr (firstName f); "lastName" := VStr (lastName f);
        "phoneNumber" := VStr (phoneNumber f); "createdAt" := VDate now;
        "userId" := VStr currentUserId ]} : obj) !! k = Some v →
    (k = "createdAt" ∧ v = VDate now)
    ∨ (k = "userId" ∧ v = VStr currentUserId)
    ∨ ∃ s, v = VStr s ∧ s ≠ "").
  { intros k v.
    rewrite !lookup_insert_Some, lookup_singleton_Some.
    intros [[_ <-]|[_ [[_ <-]|[_ [[_ <-]|[_ [[_ <-]|[_ [[_ <-]|[_ [[<- <-]|[_ [<- <-]]]]]]]]]]]]];
      eauto. }
  rewrite Hrole.
  destruct (decide (role = "agent")) as [->|Hne].
  - destruct (Hagent eq_refl) as (t & Ht & Htne & Hl & Hcac & ->).
    rewrite Ht. unfold profileData. cbn [String.eqb Ascii.eqb Bool.eqb andb].
    unfold agent_fields.
    cbn [AuthContext.agentAccountType AuthContext.lasreraNumber
         AuthContext.cacNumber].
    case_bool_decide as Hcompany.
    + subst t. split_and!.
      * intros k v. rewrite lookup_union_Some_raw.
        intros [Hk|[_ Hk]]; [|by apply Hbase]. revert Hk.
        rewrite !lookup_insert_Some, lookup_singleton_Some.
        intros [[_ <-]|[_ [[_ <-]|[_ [_ <-]]]]];
          right; right; eexists; (split; [reflexivity|auto]).
      * split; [done|]. intros _. by eexists.
      * split; [done|]. intros _. by eexists.
      * split; [done|]. intros _. by eexists.
    + split_and!.
      * intros k v. rewrite lookup_union_Some_raw.
        intros [Hk|[_ Hk]]; [|by apply Hbase]. revert Hk.
        rewrite !lookup_insert_Some, lookup_singleton_Some.
        intros [[_ <-]|[_ [_ <-]]];
          right; right; eexists; (split; [reflexivity|auto]).
      * split; [done|]. intros _. by eexists.
      * split; [done|]. intros _. by eexists.
      * split; [by intros [? [=]]|]. by intros [_ [= ->]].
  - rewrite (Hother Hne). unfold profileData. split_and!; [exact Hbase|..];
      (split; [by intros [? [=]]|]); [intros [= ->]..|intros [[= ->] _]]; done.
Qed.

Lemma validated_profile_filled_witness :
  let f := Form "Bola" "Ade" "bola@example.com" "08098765432" "hunter22"
             "hunter22" (Some "agent") (Some "company") "LAS-1" "RC-9" in
  let d := profileData 1700000000000 "bola@example.com" "agent" "Bola" "Ade"
             "08098765432" "uid-bola"
             (Some (AgentDetails (VStr "company") (VStr "LAS-1")
                      (Some (VStr "RC-9")))) in
  (∀ k v, d !! k = Some v →
          (k = "createdAt" ∧ v = VDate 1700000000000)
          ∨ (k = "userId" ∧ v = VStr "uid-bola")
          ∨ ∃ s, v = VStr s ∧ s ≠ "")
  ∧ (is_Some (d !! "agentAccountType") ↔ selectedRole f = Some "agent")
  ∧ (is_Some (d !! "lasreraNumber") ↔ selectedRole f = Some "agent")
  ∧ (is_Some (d !! "cacNumber")
     ↔ selectedRole f = Some "agent" ∧ agentAccountType f = Some "company").
Proof.
  apply (validated_profile_filled
           (Form "Bola" "Ade" "bola@example.com" "08098765432" "hunter22"
              "hunter22" (Some "agent") (Some "company") "LAS-1" "RC-9")
           (RegisterCall "bola@example.com" "hunter22" "agent" "Bola" "Ade"
              "08098765432"
              (Some (AgentDetails (VStr "company") (VStr "LAS-1")
                       (Some (VStr "RC-9")))))
           1700000000000 "uid-bola").
  reflexivity.
Defined.

End RegistrationFacts.

(** * Properties of the rows and images of the listing form *)

Section ListingFormFacts.
Import CreateListing.

Lemma filter_index_below (i k : nat) (l : list charge) :
  (i < k)%nat →
  (filter (λ p : nat * charge, p.1 ≠ i) (imap (λ j, pair (k + j)%nat) l)).*2 = l.
Proof.
  revert k. induction l as [|x l IH]; intros k Hik; [done|].
  rewrite imap_cons, filter_cons_True by (simpl; lia).
  rewrite fmap_cons. simpl. f_equal.
  rewrite <- (IH (S k)) at 2 by lia.
  do 2 f_equal. apply imap_ext. intros j y _. simpl. f_equal. lia.
Qed.

Lemma filter_index_delete (i k : nat) (l : list charge) :
  (filter (λ p : nat * charge, p.1 ≠ (k + i)%nat)
          (imap (λ j, pair (k + j)%nat) l)).*2
  = delete i l.
Proof.
  revert i k. induction l as [|x l IH]; intros i k; [done|].
  rewrite imap_cons. destruct i as [|i].
  - rewrite filter_cons_False by (simpl; lia). simpl.
    rewrite <- (filter_index_below (k + 0) (S k) l) at 2 by lia.
    do 2 f_equal. apply imap_ext. intros j y _. simpl. f_equal. lia.
  - rewrite filter_cons_True by (simpl; lia).
    rewrite fmap_cons. simpl. f_equal.
    rewrite <- (IH i (S k)).
    replace (k + S i)%nat with (S k + i)%nat by lia.
    do 2 f_equal. apply imap_ext. intros j y _. simpl. f_equal. lia.
Qed.

Lemma without_index_delete (index : nat) (serviceCharges : list charge) :
  without_index index serviceCharges = delete index serviceCharges.
Proof.
  unfold without_index.
  rewrite <- (filter_index_delete index 0 serviceCharges). done.
Qed.

Lemma delete_past_end (i : nat) (l : list charge) :
  (length l ≤ i)%nat → delete i l = l.
Proof.
  intros Hi. rewrite delete_take_drop, take_ge, drop_ge by lia.
  apply app_nil_r.
Qed.

Lemma after_row_action_length (serviceCharges : list charge) (a : row_action) :
  (1 ≤ length serviceCharges)%nat →
  (1 ≤ length (after_row_action serviceCharges a))%nat.
Proof.
  intros Hlen. destruct a as [|index|index f text]; simpl.
  - unfold addServiceChargeRow. rewrite length_app. simpl. lia.
  - unfold removeServiceChargeRow.
    destruct (1 <? length serviceCharges)%nat eqn:Hmore; simpl; [|done].
    apply Nat.ltb_lt in Hmore. rewrite without_index_delete.
    destruct (decide (index < length serviceCharges)%nat).
    + rewrite length_delete by (by apply lookup_lt_is_Some_2). lia.
    + rewrite delete_past_end by lia. done.
  - unfold handleServiceChargeChange.
    destruct (serviceCharges !! index); simpl; [|done].
    by rewrite length_insert.
Qed.

(** X27. Whatever the user does to the service-charge rows, adding,
    removing and editing in any order, the form never has fewer than one
    row. *)
Theorem service_charge_rows_never_empty (actions : list row_action) :
  (1 ≤ length (foldl after_row_action initial_serviceCharges actions))%nat.
Proof.
  assert (Hgen : ∀ l, (1 ≤ length l)%nat →
                      (1 ≤ length (foldl after_row_action l actions))%nat).
  { induction actions as [|a actions IH]; intros l Hl; [done|].
    simpl. by apply IH, after_row_action_length. }
  apply Hgen. simpl. lia.
Qed.

(** X28. With more than one row, [removeServiceChargeRow] removes exactly
    the row at the index given, keeps the other rows in order and sets no
    message; with an index past the end it changes nothing.  With a single
    row it keeps the row and sets the message. *)
Theorem removeServiceChargeRow_removes (index : nat)
    (serviceCharges : list charge) :
  ((1 < length serviceCharges)%nat →
   removeServiceChargeRow index serviceCharges
   = (delete index serviceCharges, None)
   ∧ (∀ j, (j < index)%nat →
           (removeServiceChargeRow index serviceCharges).1 !! j
           = serviceCharges !! j)
   ∧ (∀ j, (index ≤ j)%nat →
           (removeServiceChargeRow index serviceCharges).1 !! j
           = serviceCharges !! S j)
   ∧ ((length serviceCharges ≤ index)%nat →
      (removeServiceChargeRow index serviceCharges).1 = serviceCharges))
  ∧ ((length serviceCharges ≤ 1)%nat →
     removeServiceChargeRow index serviceCharges
     = (serviceCharges,
        Some "At least one service charge row is required.")).
Proof.
  unfold removeServiceChargeRow. split; intros Hlen.
  - apply Nat.ltb_lt in Hlen as ->. cbn [fst].
    rewrite without_index_delete. split_and!; [done|..].
    + intros j Hj. by apply list_lookup_delete_lt.
    + intros j Hj. by apply list_lookup_delete_ge.
    + intros Hpast. by apply delete_past_end.
  - by apply Nat.ltb_ge in Hlen as ->.
Qed.

(** An edit of a row in range changes that one field of that one row: the
    other field, the other rows and the number of rows stay.  An edit past
    the end throws. *)
Lemma handleServiceChargeChange_edits (index : nat) (f : field)
    (text : string) (serviceCharges : list charge) :
  match handleServiceChargeChange index f text serviceCharges with
  | Some rows =>
      (index < length serviceCharges)%nat
      ∧ length rows = length serviceCharges
      ∧ (∀ j, j ≠ index → rows !! j = serviceCharges !! j)
      ∧ ∃ old new,
          serviceCharges !! index = Some old ∧ rows !! index = Some new
          ∧ match f with
            | Key => key new = text ∧ value new = value old
            | Value => value new = text ∧ key new = key old
            end
  | None => (length serviceCharges ≤ index)%nat
  end.
Proof.
  unfold handleServiceChargeChange.
  destruct (serviceCharges !! index) as [old|] eqn:Hold.
  - pose proof (lookup_lt_Some _ _ _ Hold) as Hlt. split_and!.
    + done.
    + by rewrite length_insert.
    + intros j Hj. by rewrite list_lookup_insert_ne.
    + exists old. eexists. split; [done|].
      split; [by apply list_lookup_insert_eq|]. by destruct f.
  - by apply lookup_ge_None.
Qed.

Lemma add_picked_length (assets : list (option string))
    (prevImages : list string) :
  (length (add_picked assets prevImages) ≤ 10)%nat.
Proof. unfold add_picked. rewrite length_take. lia. Qed.

(** X29. Whatever images the user picks and removes, in any order, the form
    never holds more than ten images. *)
Theorem images_at_most_ten (actions : list image_action) :
  (length (foldl after_image_action [] actions) ≤ 10)%nat.
Proof.
  assert (Hgen : ∀ l, (length l ≤ 10)%nat →
                      (length (foldl after_image_action l actions) ≤ 10)%nat).
  { induction actions as [|a actions IH]; intros l Hl; [done|].
    simpl. apply IH. destruct a as [assets|uriToRemove]; simpl.
    - apply add_picked_length.
    - unfold removeImage. etrans; [apply length_filter|done]. }
  apply Hgen. simpl. lia.
Qed.

(** X30. Picking images keeps the images already chosen, in their order and
    in front, and appends the picked assets that have a non-empty [uri], in
    the order picked, as far as ten images allow; assets beyond that are
    dropped. *)
Theorem pickImage_appends (assets : list (option string))
    (prevImages : list string) :
  (length prevImages ≤ 10)%nat →
  add_picked assets prevImages
  = (prevImages
     ++ take (10 - length prevImages)
          (omap (λ uri : option string,
                   match uri with
                   | Some s => if String.eqb s "" then None else Some s
                   | None => None
                   end) assets))%list.
Proof.
  intros Hlen. unfold add_picked. rewrite take_app_ge by done.
  do 2 f_equal.
  induction assets as [|[s|] assets IH]; [done|..]; simpl; [|done].
  destruct (String.eqb s ""); simpl; [done|]. by f_equal.
Qed.

Lemma pickImage_appends_witness :
  add_picked [Some "c.jpg"; None; Some ""; Some "d.jpg"] ["a.jpg"; "b.jpg"]
  = (["a.jpg"; "b.jpg"]
     ++ take (10 - length ["a.jpg"; "b.jpg"])
          (omap (λ uri : option string,
                   match uri with
                   | Some s => if String.eqb s "" then None else Some s
                   | None => None
                   end) [Some "c.jpg"; None; Some ""; Some "d.jpg"]))%list.
Proof.
  apply (pickImage_appends [Some "c.jpg"; None; Some ""; Some "d.jpg"]
           ["a.jpg"; "b.jpg"]).
  simpl. lia.
Defined.

(** [removeImage] removes every copy of the uri given, so an image picked
    twice disappears twice, and keeps all other images in their order;
    removing a uri that is not among the images changes nothing. *)
Lemma removeImage_removes_all_copies (uriToRemove : string)
    (prevImages : list string) :
  (uriToRemove ∉ removeImage uriToRemove prevImages)
  ∧ (removeImage uriToRemove prevImages) `sublist_of` prevImages
  ∧ (∀ uri, uri ≠ uriToRemove →
            (uri ∈ removeImage uriToRemove prevImages ↔ uri ∈ prevImages))
  ∧ (length (removeImage uriToRemove prevImages)
     + length (filter (λ uri, uri = uriToRemove) prevImages)
     = length prevImages)%nat
  ∧ (uriToRemove ∉ prevImages →
     removeImage uriToRemove prevImages = prevImages).
Proof.
  unfold removeImage. split_and!.
  - rewrite list_elem_of_filter. by intros [? _].
  - apply sublist_filter.
  - intros uri Hne. rewrite list_elem_of_filter. tauto.
  - induction prevImages as [|x l IH]; [done|].
    destruct (decide (x = uriToRemove)) as [->|Hx].
    + rewrite filter_cons_False by (by intros ?).
      rewrite filter_cons_True by done. simpl. lia.
    + rewrite filter_cons_True by done.
      rewrite filter_cons_False by done. simpl. lia.
  - intros Hnot. induction prevImages as [|x l IH]; [done|].
    apply not_elem_of_cons in Hnot as [Hx Hl].
    rewrite filter_cons_True by done. f_equal. by apply IH.
Qed.

End ListingFormFacts.
